(** * Resolution of CEL expressions in function deployment parameters

    A shallow embedding of [src/deploy/functions/cel.ts] and the properties
    of its five expression shapes.

    Conventions of the embedding.
    - A JavaScript string is a [string]; every [ascii] stands for one UTF-16
      code unit below 256, so the white space and line terminator classes
      below are the ECMAScript ones restricted to that range.
    - A JavaScript number is an IEEE 754 binary64 value, [spec_float] with
      precision 53 and maximal exponent 1024.
    - A thrown exception is the [Throw] case of [result]; [FirebaseError]
      carries the message the source builds, [TypeError] is what the
      JavaScript engine raises on a property read of [undefined].
    - [Record<string, ParamValue>] is a [gmap string ParamValue]; an index
      with an absent key yields [undefined], here [None].  The properties a
      JavaScript object inherits from its prototype are not part of the
      table. *)

From Stdlib Require Import ZArith Ascii String List Bool Lia.
From Stdlib Require Import Floats.SpecFloat.
From stdpp Require Import base option strings gmap.

Import ListNotations.
Local Open Scope string_scope.
Local Open Scope list_scope.

(** ** Strings *)

Module Str.

(** The double quote character, code unit 34. *)
Definition DQUOTE : ascii := "034"%char.

(** [quoted s] is [s] between two double quotes. *)
Definition quoted (s : string) : string :=
  String DQUOTE (s +:+ String DQUOTE EmptyString).

Definition chars (s : string) : list ascii := list_ascii_of_string s.
Definition ofChars (l : list ascii) : string := string_of_list_ascii l.

(** [String.prototype.startsWith] on lists of code units. *)
Fixpoint isPrefix (p s : list ascii) : bool :=
  match p, s with
  | [], _ => true
  | a :: p', b :: s' => Ascii.eqb a b && isPrefix p' s'
  | _ :: _, [] => false
  end.

Definition startsWith (s p : string) : bool := isPrefix (chars p) (chars s).

(** [String.prototype.endsWith]: the search string is a prefix of the
    reversed receiver, once reversed itself. *)
Definition endsWith (s p : string) : bool :=
  isPrefix (rev (chars p)) (rev (chars s)).

(** The relative index clamping of [String.prototype.slice]. *)
Definition clampIndex (len i : Z) : Z :=
  if (i <? 0)%Z then Z.max (len + i) 0 else Z.min i len.

(** [String.prototype.slice(start, end)]. *)
Definition slice (s : string) (start end_ : Z) : string :=
  let len := Z.of_nat (String.length s) in
  let from := clampIndex len start in
  let to := clampIndex len end_ in
  let span := Z.max (to - from) 0 in
  ofChars (firstn (Z.to_nat span) (skipn (Z.to_nat from) (chars s))).

(** [stripPrefix p s] removes the leading [p] of [s] when it is there. *)
Fixpoint stripPrefix (p s : list ascii) : option (list ascii) :=
  match p, s with
  | [], _ => Some s
  | a :: p', b :: s' => if Ascii.eqb a b then stripPrefix p' s' else None
  | _ :: _, [] => None
  end.

End Str.

(** The text made of one double quote. *)
Abbreviation dquote := (String Str.DQUOTE EmptyString) (only parsing).

(** ** Regular expressions

    The six patterns of the source use literal characters and capturing
    groups around a greedy [+] of one character class, nothing else.  The
    matcher below is the backtracking matcher of ECMA-262 for that fragment:
    a group first takes as many characters as its class allows and gives
    them back one at a time while the rest of the pattern fails. *)

Module RegExp.

(** [\s] on code units below 256: TAB, LF, VT, FF, CR, SP and NBSP. *)
Definition isWhiteSpace (c : ascii) : bool :=
  let n := N_of_ascii c in
  ((9 <=? n) && (n <=? 13) || (n =? 32) || (n =? 160))%N.

(** [\S]. *)
Definition nonSpace (c : ascii) : bool := negb (isWhiteSpace c).

(** [.] without the [s] flag: anything but a line terminator (LF, CR). *)
Definition dot (c : ascii) : bool :=
  let n := N_of_ascii c in
  negb ((n =? 10) || (n =? 13))%N.

Inductive atom : Type :=
  | Chars (lit : string)
  | Group (cls : ascii -> bool).

Definition pattern : Type := list atom.

Section Matcher.
Context {R : Type}.

(** [(cls+)] followed by the continuation [k], which receives the text of
    the group and the input left after it. *)
Fixpoint greedyPlus (cls : ascii -> bool)
    (k : list ascii -> list ascii -> option R) (s : list ascii) : option R :=
  match s with
  | [] => None
  | c :: s' =>
      if cls c then
        match greedyPlus cls (fun cap rest => k (c :: cap) rest) s' with
        | Some r => Some r
        | None => k [c] s'
        end
      else None
  end.
End Matcher.

(** [matchHere p s]: the captures of a match of [p] that starts at the
    first character of [s]. *)
Fixpoint matchHere (p : pattern) : list ascii -> option (list string) :=
  match p with
  | [] => fun _ => Some []
  | Chars lit :: p' => fun s =>
      match Str.stripPrefix (Str.chars lit) s with
      | Some s' => matchHere p' s'
      | None => None
      end
  | Group cls :: p' => fun s =>
      greedyPlus cls
        (fun cap rest =>
           match matchHere p' rest with
           | Some caps => Some (Str.ofChars cap :: caps)
           | None => None
           end) s
  end.

(** The patterns are not anchored: the match is tried at every start
    position, leftmost first. *)
Fixpoint search (p : pattern) (s : list ascii) : option (list string) :=
  match matchHere p s with
  | Some caps => Some caps
  | None =>
      match s with
      | [] => None
      | _ :: s' => search p s'
      end
  end.

(** [RegExp.prototype.exec] without the [g] flag.  The result holds the
    capturing groups: [match[i]] of the source is [group i] of it. *)
Definition exec (p : pattern) (s : string) : option (list string) :=
  search p (Str.chars s).

Definition group (i : nat) (m : list string) : string := nth (i - 1) m EmptyString.

(** [RegExp.prototype.test]. *)
Definition test (p : pattern) (s : string) : bool :=
  match exec p s with Some _ => true | None => false end.

End RegExp.

Import RegExp.

Definition identityRegexp : pattern :=
  [Chars "{{ params."; Group nonSpace; Chars " }}"].
Definition equalityRegexp : pattern :=
  [Chars "{{ params."; Group nonSpace; Chars " == "; Group dot; Chars " }}"].
Definition dualEqualityRegexp : pattern :=
  [Chars "{{ params."; Group nonSpace; Chars " == params."; Group nonSpace;
   Chars " }}"].
Definition ternaryRegexp : pattern :=
  [Chars "{{ params."; Group nonSpace; Chars " == "; Group dot; Chars " ? ";
   Group dot; Chars " : "; Group dot; Chars " }"].
Definition literalTernaryRegexp : pattern :=
  [Chars "{{ params."; Group nonSpace; Chars " ? "; Group dot; Chars " : ";
   Group dot; Chars " }"].
Definition paramRegexp : pattern :=
  [Chars "params."; Group nonSpace].

(** ** Numbers

    [+value] on a string is the abstract operation StringToNumber of
    ECMA-262 (7.1.4.1.1): the text is parsed as a StringNumericLiteral,
    the result is NaN when it is not one, and its mathematical value
    rounded to binary64 (to nearest, ties to even) when it is. *)

Module Number.

Definition number : Type := spec_float.

Definition NaN : number := S754_nan.
Definition Infinity (neg : bool) : number := S754_infinity neg.

(** [isNaN] on a number. *)
Definition isNaN (x : number) : bool :=
  match x with S754_nan => true | _ => false end.

(** [===] on two numbers: NaN differs from itself, the two zeros agree. *)
Definition eqb (x y : number) : bool := SFeqb x y.

Definition ofInteger (n : Z) : number := binary_normalize 53 1024 n 0 false.

(** The binary64 value nearest to [m * 10 ^ e], for [0 <= m].  A negative
    exponent divides with enough extra bits for the quotient to carry a
    guard bit, and records a non-zero remainder in a last, sticky bit. *)
Definition ofDecimal (neg : bool) (m e : Z) : number :=
  let sgn (x : Z) := if neg then (- x)%Z else x in
  if (m =? 0)%Z then S754_zero neg
  else if (0 <=? e)%Z then binary_normalize 53 1024 (sgn (m * 10 ^ e)%Z) 0 neg
  else
    let d := (10 ^ (- e))%Z in
    let k := Z.max 0 (Z.log2 d - Z.log2 m + 56) in
    let n := (m * 2 ^ k)%Z in
    let sticky := if (n mod d =? 0)%Z then 0%Z else 1%Z in
    binary_normalize 53 1024 (sgn (2 * (n / d) + sticky)%Z) (- k - 1) neg.

Definition digitValue (c : ascii) : option Z :=
  let n := Z.of_N (N_of_ascii c) in
  if ((48 <=? n) && (n <=? 57))%Z then Some (n - 48)%Z
  else if ((97 <=? n) && (n <=? 102))%Z then Some (n - 87)%Z
  else if ((65 <=? n) && (n <=? 70))%Z then Some (n - 55)%Z
  else None.

Definition isDigit (radix : Z) (c : ascii) : bool :=
  match digitValue c with
  | Some v => (v <? radix)%Z
  | None => false
  end.

(** The longest prefix of digits of [s] and what follows it. *)
Fixpoint spanDigits (radix : Z) (s : list ascii) : list ascii * list ascii :=
  match s with
  | c :: s' =>
      if isDigit radix c then
        let '(ds, rest) := spanDigits radix s' in (c :: ds, rest)
      else ([], s)
  | [] => ([], [])
  end.

Definition digitsValue (radix : Z) (ds : list ascii) : Z :=
  fold_left (fun acc c => (acc * radix + default 0 (digitValue c))%Z) ds 0%Z.

(** ExponentPart, optional, up to the end of the text. *)
Definition exponentPart (s : list ascii) : option Z :=
  match s with
  | [] => Some 0%Z
  | c :: s' =>
      if Ascii.eqb c "e" || Ascii.eqb c "E" then
        let '(neg, s'') :=
          match s' with
          | "-"%char :: t => (true, t)
          | "+"%char :: t => (false, t)
          | _ => (false, s')
          end in
        match spanDigits 10 s'' with
        | ((_ :: _) as ds, []) =>
            Some (if neg then - digitsValue 10 ds else digitsValue 10 ds)%Z
        | _ => None
        end
      else None
  end.

(** StrUnsignedDecimalLiteral. *)
Definition unsignedDecimal (neg : bool) (s : list ascii) : number :=
  if String.eqb (Str.ofChars s) "Infinity" then Infinity neg
  else
    let '(ip, r1) := spanDigits 10 s in
    let '(fp, r2) :=
      match r1 with
      | "."%char :: t => spanDigits 10 t
      | _ => ([], r1)
      end in
    match ip ++ fp with
    | [] => NaN
    | ds =>
        match exponentPart r2 with
        | Some e => ofDecimal neg (digitsValue 10 ds) (e - Z.of_nat (length fp))
        | None => NaN
        end
    end.

(** NonDecimalIntegerLiteral after its two-character prefix. *)
Definition nonDecimal (radix : Z) (s : list ascii) : number :=
  match spanDigits radix s with
  | ((_ :: _) as ds, []) => ofInteger (digitsValue radix ds)
  | _ => NaN
  end.

(** StrNumericLiteral. *)
Definition numericLiteral (s : list ascii) : number :=
  match s with
  | "0"%char :: c :: t =>
      if Ascii.eqb c "x" || Ascii.eqb c "X" then nonDecimal 16 t
      else if Ascii.eqb c "o" || Ascii.eqb c "O" then nonDecimal 8 t
      else if Ascii.eqb c "b" || Ascii.eqb c "B" then nonDecimal 2 t
      else unsignedDecimal false s
  | "-"%char :: t => unsignedDecimal true t
  | "+"%char :: t => unsignedDecimal false t
  | _ => unsignedDecimal false s
  end.

Fixpoint skipWhiteSpace (s : list ascii) : list ascii :=
  match s with
  | c :: s' => if isWhiteSpace c then skipWhiteSpace s' else s
  | [] => []
  end.

(** The text without its leading and trailing StrWhiteSpace. *)
Definition trim (s : list ascii) : list ascii :=
  rev (skipWhiteSpace (rev (skipWhiteSpace s))).

(** StringToNumber: the unary [+] of the source on a string. *)
Definition StringToNumber (s : string) : number :=
  match trim (Str.chars s) with
  | [] => S754_zero false
  | t => numericLiteral t
  end.

End Number.

Import Number.

(** ** Values, parameters and exceptions *)

(** The type tag [L] of the source: "string", "number" or "boolean". *)
Inductive L : Type := Lstring | Lnumber | Lboolean.

(** A [Literal]: [string | number | boolean]. *)
Inductive Literal : Type :=
  | VString (s : string)
  | VNumber (n : number)
  | VBoolean (b : bool).

(** [typeof] of a literal, as a type tag. *)
Definition typeOf (v : Literal) : L :=
  match v with
  | VString _ => Lstring
  | VNumber _ => Lnumber
  | VBoolean _ => Lboolean
  end.

(** A type tag inside a template literal. *)
Definition showL (t : L) : string :=
  match t with
  | Lstring => "string"
  | Lnumber => "number"
  | Lboolean => "boolean"
  end.

(** [===] on two literals. *)
Definition strictEq (x y : Literal) : bool :=
  match x, y with
  | VString a, VString b => String.eqb a b
  | VNumber a, VNumber b => Number.eqb a b
  | VBoolean a, VBoolean b => Bool.eqb a b
  | _, _ => false
  end.

(** [==] on two literals of one type is [===] (IsLooselyEqual, step 1);
    the source applies it to the results of one accessor only. *)
Definition looseEqSameType (x y : Literal) : bool := strictEq x y.

(** Modelled from the spec: the class [ParamValue] of [./params], of which
    the source imports the type only.  The spec gives it three legality
    flags and three accessors; an accessor is a field here, its value fixed
    for the duration of a call. *)
Record ParamValue : Type := mkParamValue {
  legalString : bool;
  legalNumber : bool;
  legalBoolean : bool;
  asString : string;
  asNumber : number;
  asBoolean : bool
}.

Inductive exn : Type :=
  | FirebaseError (message : string)
  | TypeError (property : string).

Inductive result (A : Type) : Type :=
  | Ok (a : A)
  | Throw (e : exn).

Arguments Ok {A} a.
Arguments Throw {A} e.

Definition bind {A B : Type} (r : result A) (k : A -> result B) : result B :=
  match r with
  | Ok a => k a
  | Throw e => Throw e
  end.

Notation "'let!' x ':=' r 'in' k" := (bind r (fun x => k))
  (at level 10, x name, r at level 200, k at level 200).

(** A property read or method call on a value that may be [undefined]. *)
Definition prop {A : Type} (name : string) (f : ParamValue -> A)
    (v : option ParamValue) : result A :=
  match v with
  | Some pv => Ok (f pv)
  | None => Throw (TypeError name)
  end.

(** ** The resolvers *)

Definition isIdentityExpression (value : string) : bool :=
  test identityRegexp value.
Definition isEqualityExpression (value : string) : bool :=
  test equalityRegexp value.
Definition isDualEqualityExpression (value : string) : bool :=
  test dualEqualityRegexp value.
Definition isTernaryExpression (value : string) : bool :=
  test ternaryRegexp value.
Definition isLiteralTernaryExpression (value : string) : bool :=
  test literalTernaryRegexp value.

(** [isCelExpression] on a string. *)
Definition isCelExpression (value : string) : bool :=
  Str.startsWith value "{{" && Str.endsWith value "}}".

(** The callers pass [params[name]], which is [undefined] for an absent
    name: the parameter value is an [option].  Of the three disjuncts of the
    source only the one of [wantType] reads a flag. *)
Definition assertType (wantType : L) (paramName : string)
    (paramValue : option ParamValue) : result unit :=
  let! illegal :=
    match wantType with
    | Lstring => let! legal := prop "legalString" legalString paramValue in Ok (negb legal)
    | Lnumber => let! legal := prop "legalNumber" legalNumber paramValue in Ok (negb legal)
    | Lboolean => let! legal := prop "legalBoolean" legalBoolean paramValue in Ok (negb legal)
    end in
  if illegal : bool then
    Throw (FirebaseError ("illegal type coercion of param " +:+ paramName
                          +:+ " to type " +:+ showL wantType))
  else Ok tt.

Definition readParamValue (wantType : L) (paramName : string)
    (paramValue : option ParamValue) : result Literal :=
  let! checked := assertType wantType paramName paramValue in
  match wantType with
  | Lstring => let! v := prop "asString" asString paramValue in Ok (VString v)
  | Lnumber => let! v := prop "asNumber" asNumber paramValue in Ok (VNumber v)
  | Lboolean => let! v := prop "asBoolean" asBoolean paramValue in Ok (VBoolean v)
  end.

Definition resolveLiteral (wantType : L) (value : string) : result Literal :=
  match exec paramRegexp value with
  | Some _ =>
      Throw (FirebaseError ("CEL tried to evaluate param." +:+ value
               +:+ " in a context which only permits literal values"))
  | None =>
      match wantType with
      | Lnumber =>
          if isNaN (StringToNumber value) then
            Throw (FirebaseError ("CEL literal " +:+ value
                     +:+ " does not seem to be a number"))
          else Ok (VNumber (StringToNumber value))
      | Lstring =>
          if negb (Str.startsWith value (dquote))
             || negb (Str.endsWith value (dquote)) then
            Throw (FirebaseError ("CEL literal " +:+ value
                     +:+ " does not seem to be a "
                     +:+ String Str.DQUOTE "-delimited string"))
          else Ok (VString (Str.slice value 1 (-1)))
      | Lboolean =>
          if String.eqb value "true" then Ok (VBoolean true)
          else if String.eqb value "false" then Ok (VBoolean false)
          else
            Throw (FirebaseError ("CEL literal " +:+ value
                     +:+ "does not seem to be a true/false boolean"))
      end
  end.

Section Resolvers.
Variable params : gmap string ParamValue.

Definition resolveParamOrLiteral (wantType : L) (field : string)
    : result Literal :=
  match exec paramRegexp field with
  | None => resolveLiteral wantType field
  | Some m =>
      let paramValue := params !! group 1 m in
      readParamValue wantType (group 1 m) paramValue
  end.

Definition resolveIdentity (wantType : L) (expr : string) : result Literal :=
  match exec identityRegexp expr with
  | None =>
      Throw (FirebaseError ("malformed CEL identity expression '" +:+ expr +:+ "'"))
  | Some m =>
      let name := group 1 m in
      match params !! name with
      | None =>
          Throw (FirebaseError ("CEL identity expression '" +:+ expr
                   +:+ "' was not resolvable to a param"))
      | Some value => readParamValue wantType name (Some value)
      end
  end.

Definition resolveEquality (expr : string) : result bool :=
  match exec equalityRegexp expr with
  | None =>
      Throw (FirebaseError ("malformed CEL equality expression '" +:+ expr +:+ "'"))
  | Some m =>
      let lhsName := group 1 m in
      match params !! lhsName with
      | None =>
          Throw (FirebaseError ("CEL equality expression '" +:+ expr
                   +:+ "' references missing param " +:+ lhsName))
      | Some lhsVal =>
          if legalString lhsVal then
            let! rhs := resolveLiteral Lstring (group 2 m) in
            Ok (strictEq (VString (asString lhsVal)) rhs)
          else if legalNumber lhsVal then
            let! rhs := resolveLiteral Lnumber (group 2 m) in
            Ok (strictEq (VNumber (asNumber lhsVal)) rhs)
          else if legalBoolean lhsVal then
            let! rhs := resolveLiteral Lboolean (group 2 m) in
            Ok (strictEq (VBoolean (asBoolean lhsVal)) rhs)
          else
            Throw (FirebaseError ("could not infer type of param " +:+ lhsName
                     +:+ " used in equality operation"))
      end
  end.

Definition typeMismatch (expr : string) : exn :=
  FirebaseError ("CEL equality expression " +:+ expr
                 +:+ " has type mismatch between the operands").

Definition resolveDualEquality (expr : string) : result bool :=
  match exec dualEqualityRegexp expr with
  | None =>
      Throw (FirebaseError ("malformed CEL equality expression '" +:+ expr +:+ "'"))
  | Some m =>
      let lhsName := group 1 m in
      match params !! lhsName with
      | None =>
          Throw (FirebaseError ("CEL equality expression '" +:+ expr
                   +:+ "' references missing param " +:+ lhsName))
      | Some lhsVal =>
          let rhsName := group 2 m in
          match params !! rhsName with
          | None =>
              (* the source names [lhsName] here as well *)
              Throw (FirebaseError ("CEL equality expression '" +:+ expr
                       +:+ "' references missing param " +:+ lhsName))
          | Some rhsVal =>
              if legalString lhsVal then
                if negb (legalString rhsVal) then Throw (typeMismatch expr)
                else Ok (looseEqSameType (VString (asString lhsVal))
                                         (VString (asString rhsVal)))
              else if legalNumber lhsVal then
                if negb (legalNumber rhsVal) then Throw (typeMismatch expr)
                else Ok (looseEqSameType (VNumber (asNumber lhsVal))
                                         (VNumber (asNumber rhsVal)))
              else if legalBoolean lhsVal then
                if negb (legalBoolean rhsVal) then Throw (typeMismatch expr)
                else Ok (looseEqSameType (VBoolean (asBoolean lhsVal))
                                         (VBoolean (asBoolean rhsVal)))
              else
                Throw (FirebaseError ("could not infer type of param " +:+ lhsName
                         +:+ " used in equality operation"))
          end
      end
  end.

Definition resolveTernary (wantType : L) (expr : string) : result Literal :=
  match exec ternaryRegexp expr with
  | None =>
      Throw (FirebaseError ("malformed CEL ternary expression '" +:+ expr +:+ "'"))
  | Some m =>
      let equalityExpr :=
        "{{ params." +:+ group 1 m +:+ " == " +:+ group 2 m +:+ " }}" in
      let! isTrue := resolveEquality equalityExpr in
      if isTrue : bool then resolveParamOrLiteral wantType (group 3 m)
      else resolveParamOrLiteral wantType (group 4 m)
  end.

Definition resolveLiteralTernary (wantType : L) (expr : string)
    : result Literal :=
  match exec literalTernaryRegexp expr with
  | None =>
      Throw (FirebaseError ("malformed CEL ternary expression '" +:+ expr +:+ "'"))
  | Some m =>
      let paramName := group 1 m in
      match params !! group 1 m with
      | None =>
          Throw (FirebaseError ("CEL ternary expression '" +:+ expr
                   +:+ "' references missing param " +:+ paramName))
      | Some paramValue =>
          if negb (legalBoolean paramValue) then
            Throw (FirebaseError ("CEL ternary expression '" +:+ expr
                     +:+ "' is conditional on non-boolean param " +:+ paramName))
          else if asBoolean paramValue then
            resolveParamOrLiteral wantType (group 2 m)
          else resolveParamOrLiteral wantType (group 3 m)
      end
  end.

(** The entry point.  The two equality resolvers return a [boolean],
    which is a [Literal]. *)
Definition resolveExpression (wantType : L) (expr : string) : result Literal :=
  if isIdentityExpression expr then resolveIdentity wantType expr
  else if isTernaryExpression expr then resolveTernary wantType expr
  else if isLiteralTernaryExpression expr then resolveLiteralTernary wantType expr
  else if isDualEqualityExpression expr then
    let! b := resolveDualEquality expr in Ok (VBoolean b)
  else if isEqualityExpression expr then
    let! b := resolveEquality expr in Ok (VBoolean b)
  else
    Throw (FirebaseError ("CEL expression '" +:+ expr
             +:+ "' is of an unsupported form")).
End Resolvers.


(** ** Notions of the specification *)

(** The type a resolver infers for a parameter used in an equality: the
    first true legality flag in the order string, number, boolean. *)
Definition inferType (v : ParamValue) : option L :=
  if legalString v then Some Lstring
  else if legalNumber v then Some Lnumber
  else if legalBoolean v then Some Lboolean
  else None.

(** The legality flag of a type. *)
Definition legal (t : L) (v : ParamValue) : bool :=
  match t with
  | Lstring => legalString v
  | Lnumber => legalNumber v
  | Lboolean => legalBoolean v
  end.

(** The accessor of a type. *)
Definition access (t : L) (v : ParamValue) : Literal :=
  match t with
  | Lstring => VString (asString v)
  | Lnumber => VNumber (asNumber v)
  | Lboolean => VBoolean (asBoolean v)
  end.

(** The five shapes, in the order the specification tests them. *)
Inductive Shape : Type :=
  | Identity | Ternary | LiteralTernary | DualEquality | Equality.

Definition shapeOrder : list Shape :=
  [Identity; Ternary; LiteralTernary; DualEquality; Equality].

(** The pattern test of a shape. *)
Definition hasShape (sh : Shape) (expr : string) : bool :=
  match sh with
  | Identity => isIdentityExpression expr
  | Ternary => isTernaryExpression expr
  | LiteralTernary => isLiteralTernaryExpression expr
  | DualEquality => isDualEqualityExpression expr
  | Equality => isEqualityExpression expr
  end.

(** The Shape Matcher of the specification: the first shape of
    [shapeOrder] whose pattern the expression matches. *)
Definition classify (expr : string) : option Shape :=
  List.find (fun sh => hasShape sh expr) shapeOrder.

Definition unsupportedForm (expr : string) : exn :=
  FirebaseError ("CEL expression '" +:+ expr +:+ "' is of an unsupported form").

(** The resolver of a shape, with the boolean of the two equality shapes
    seen as a literal. *)
Definition resolverOf (sh : Shape) (params : gmap string ParamValue)
    (wantType : L) (expr : string) : result Literal :=
  match sh with
  | Identity => resolveIdentity params wantType expr
  | Ternary => resolveTernary params wantType expr
  | LiteralTernary => resolveLiteralTernary params wantType expr
  | DualEquality => let! b := resolveDualEquality params expr in Ok (VBoolean b)
  | Equality => let! b := resolveEquality params expr in Ok (VBoolean b)
  end.

(** The synthetic expression the ternary resolver hands to the equality
    resolver. *)
Definition syntheticEquality (name rhsText : string) : string :=
  "{{ params." +:+ name +:+ " == " +:+ rhsText +:+ " }}".

(** A declarative reading of the patterns: [Matches p s caps rest] when a
    prefix of [s] is in the language of [p] with the groups [caps], and
    [rest] follows that prefix. *)
Inductive Matches : pattern -> list ascii -> list string -> list ascii -> Prop :=
  | MatchesEnd (s : list ascii) : Matches [] s [] s
  | MatchesChars (lit : string) (p : pattern) (s : list ascii)
      (caps : list string) (rest : list ascii) :
      Matches p s caps rest ->
      Matches (Chars lit :: p) (Str.chars lit ++ s) caps rest
  | MatchesGroup (cls : ascii -> bool) (p : pattern) (cap s : list ascii)
      (caps : list string) (rest : list ascii) :
      cap <> [] -> forallb cls cap = true ->
      Matches p s caps rest ->
      Matches (Group cls :: p) (cap ++ s) (Str.ofChars cap :: caps) rest.

(** The number of groups of a pattern. *)
Fixpoint groups (p : pattern) : nat :=
  match p with
  | [] => 0
  | Chars _ :: p' => groups p'
  | Group _ :: p' => S (groups p')
  end.

(** ** Parameter values of one legal type *)

Definition stringParam (s : string) : ParamValue :=
  mkParamValue true false false s NaN false.
Definition numberParam (n : number) : ParamValue :=
  mkParamValue false true false EmptyString n false.
Definition booleanParam (b : bool) : ParamValue :=
  mkParamValue false false true EmptyString NaN b.

(** A table with a string parameter and a number parameter. *)
Definition fooBarTable : gmap string ParamValue :=
  <[ "bar" := numberParam (StringToNumber "24") ]> {[ "foo" := stringParam "x" ]}.

(** A table with one boolean parameter. *)
Definition flagTable (b : bool) : gmap string ParamValue :=
  {[ "flag" := booleanParam b ]}.

(** ** Expressions built from their operands *)

(** A text the group [(\S+)] takes whole: not empty, no white space. *)
Definition isName (s : string) : bool :=
  negb (String.eqb s EmptyString) && forallb nonSpace (Str.chars s).

(** A text the group [(.+)] takes whole: not empty, no line terminator. *)
Definition isText (s : string) : bool :=
  negb (String.eqb s EmptyString) && forallb dot (Str.chars s).

(** [lacks c s]: the character [c] does not occur in [s]. *)
Definition lacks (c : ascii) (s : string) : bool :=
  forallb (fun x => negb (Ascii.eqb x c)) (Str.chars s).

Definition equalityOf (name rhsText : string) : string :=
  "{{ params." +:+ name +:+ " == " +:+ rhsText +:+ " }}".


(** The outcome of comparing the parameter [name] with the literal text
    [rhsText], in an equality expression shown as [shown] in the errors. *)
Definition compareWith (params : gmap string ParamValue)
    (shown name rhsText : string) : result bool :=
  match params !! name with
  | None =>
      Throw (FirebaseError ("CEL equality expression '" +:+ shown
               +:+ "' references missing param " +:+ name))
  | Some v =>
      match inferType v with
      | Some t =>
          let! rhs := resolveLiteral t rhsText in
          Ok (strictEq (access t v) rhs)
      | None =>
          Throw (FirebaseError ("could not infer type of param " +:+ name
                   +:+ " used in equality operation"))
      end
  end.

(** * Properties *)

(** ** Code units and strings *)

Lemma chars_append (a b : string) :
  Str.chars (a +:+ b) = Str.chars a ++ Str.chars b.
Proof.
  induction a as [|c a IH]; simpl; [reflexivity|].
  unfold Str.chars in *. simpl. now rewrite IH.
Qed.

Lemma chars_ofChars (l : list ascii) : Str.chars (Str.ofChars l) = l.
Proof. apply list_ascii_of_string_of_list_ascii. Qed.

Lemma ofChars_chars (s : string) : Str.ofChars (Str.chars s) = s.
Proof. apply string_of_list_ascii_of_string. Qed.

Lemma chars_inj (a b : string) : Str.chars a = Str.chars b -> a = b.
Proof.
  intros H. rewrite <- (ofChars_chars a), <- (ofChars_chars b). now rewrite H.
Qed.

Lemma chars_length (s : string) : length (Str.chars s) = String.length s.
Proof.
  induction s as [|c s IH]; simpl; [reflexivity|].
  unfold Str.chars in *. simpl. now rewrite IH.
Qed.

Lemma isPrefix_spec (p s : list ascii) :
  Str.isPrefix p s = true <-> exists r, s = p ++ r.
Proof.
  revert s. induction p as [|a p IH]; intros s; simpl.
  - split; [intros _; now exists s | reflexivity].
  - destruct s as [|b s].
    + split; [discriminate | intros [r Hr]; discriminate].
    + rewrite andb_true_iff, IH. split.
      * intros [Hab [r ->]]. apply Ascii.eqb_eq in Hab. subst. now exists r.
      * intros [r Hr]. injection Hr as -> ->. split; [apply Ascii.eqb_refl | now exists r].
Qed.

Lemma stripPrefix_spec (p s r : list ascii) :
  Str.stripPrefix p s = Some r <-> s = p ++ r.
Proof.
  revert s. induction p as [|a p IH]; intros s; simpl.
  - split; [now intros [= ->] | now intros ->].
  - destruct s as [|b s].
    + split; discriminate.
    + destruct (Ascii.eqb a b) eqn:Hab.
      * apply Ascii.eqb_eq in Hab. subst. rewrite IH. split; [now intros -> | now intros [= ->]].
      * apply Ascii.eqb_neq in Hab. split; [discriminate | intros [= -> _]; contradiction].
Qed.

Lemma stripPrefix_app (p r : list ascii) : Str.stripPrefix p (p ++ r) = Some r.
Proof. now apply stripPrefix_spec. Qed.

(** ** The matcher *)

Section GreedyPlus.
Context {R : Type}.
Implicit Types (cls : ascii -> bool) (k : list ascii -> list ascii -> option R).

(** A group whose continuation accepts some split does match. *)
Lemma greedyPlus_complete cls k (cap rest : list ascii) (r : R) :
  cap <> [] -> forallb cls cap = true -> k cap rest = Some r ->
  exists r', greedyPlus cls k (cap ++ rest) = Some r'.
Proof.
  revert k. induction cap as [|c cap IH]; intros k Hne Hall Hk; [contradiction|].
  simpl in Hall. apply andb_true_iff in Hall as [Hc Hall].
  simpl. rewrite Hc.
  destruct (greedyPlus cls (fun cap0 rest0 => k (c :: cap0) rest0) (cap ++ rest))
    as [r0|] eqn:Hin; [now exists r0|].
  destruct cap as [|d cap].
  - simpl. now exists r.
  - destruct (IH (fun cap0 rest0 => k (c :: cap0) rest0)) as [r' Hr']; try easy.
    congruence.
Qed.

(** What a successful group took: a non-empty run of the class that the
    continuation accepted, and no longer run was acceptable. *)
Lemma greedyPlus_sound cls k (s : list ascii) (r : R) :
  greedyPlus cls k s = Some r ->
  exists cap rest,
    s = cap ++ rest /\ cap <> [] /\ forallb cls cap = true /\
    k cap rest = Some r /\
    forall cap' rest', s = cap' ++ rest' -> length cap < length cap' ->
      forallb cls cap' = true -> k cap' rest' = None.
Proof.
  revert k. induction s as [|c s IH]; intros k H; simpl in H; [discriminate|].
  destruct (cls c) eqn:Hc; [|discriminate].
  destruct (greedyPlus cls (fun cap0 rest0 => k (c :: cap0) rest0) s)
    as [r0|] eqn:Hin.
  - injection H as ->.
    destruct (IH _ Hin) as (cap & rest & -> & Hne & Hall & Hk & Hmax).
    exists (c :: cap), rest. repeat split; try easy.
    + simpl. now rewrite Hc.
    + intros cap' rest' Heq Hlen Hall'.
      destruct cap' as [|c' cap']; [simpl in Hlen; lia|].
      simpl in Heq. injection Heq as <- Heq.
      simpl in Hall'. apply andb_true_iff in Hall' as [_ Hall'].
      apply (Hmax cap' rest' Heq); [simpl in Hlen; lia | exact Hall'].
  - exists [c], s. repeat split; try easy.
    + simpl. now rewrite Hc.
    + intros cap' rest' Heq Hlen Hall'.
      destruct cap' as [|c' [|d cap']]; simpl in Hlen; try lia.
      simpl in Heq. injection Heq as <- Heq.
      simpl in Hall'. apply andb_true_iff in Hall' as [_ Hall'].
      destruct (k (c :: d :: cap') rest') as [r1|] eqn:Hk1; [|reflexivity].
      destruct (greedyPlus_complete cls (fun cap0 rest0 => k (c :: cap0) rest0)
                  (d :: cap') rest' r1) as [r' Hr']; try easy.
      subst s. change ((d :: cap') ++ rest') with (d :: cap' ++ rest') in Hr'.
      congruence.
Qed.

(** The group takes the longest run of its class that the continuation
    accepts. *)
Lemma greedyPlus_longest cls k (cap rest : list ascii) (r : R) :
  cap <> [] -> forallb cls cap = true -> k cap rest = Some r ->
  (forall cap' rest', cap ++ rest = cap' ++ rest' -> length cap < length cap' ->
     forallb cls cap' = true -> k cap' rest' = None) ->
  greedyPlus cls k (cap ++ rest) = Some r.
Proof.
  intros Hne Hall Hk Hmax.
  destruct (greedyPlus_complete cls k cap rest r Hne Hall Hk) as [r' Hr'].
  destruct (greedyPlus_sound _ _ _ _ Hr')
    as (cap1 & rest1 & Heq & Hne1 & Hall1 & Hk1 & Hmax1).
  destruct (Nat.lt_trichotomy (length cap) (length cap1)) as [Hlt|[Hlen|Hgt]].
  - rewrite (Hmax cap1 rest1 Heq Hlt Hall1) in Hk1. discriminate.
  - assert (cap = cap1 /\ rest = rest1) as [<- <-].
    { now apply app_inj_1. }
    congruence.
  - rewrite (Hmax1 cap rest eq_refl Hgt Hall) in Hk. discriminate.
Qed.
End GreedyPlus.

(** Takes a match of a pattern given atom by atom apart, down to its
    groups. *)
Ltac invert_matches :=
  repeat match goal with
         | Hm : Matches (_ :: _) _ _ _ |- _ => inversion Hm; subst; clear Hm
         | Hm : Matches [] _ _ _ |- _ => inversion Hm; subst; clear Hm
         end.

(** The matcher finds only matches of the declarative reading. *)
Lemma matchHere_sound (p : pattern) (s : list ascii) (caps : list string) :
  matchHere p s = Some caps -> exists rest, Matches p s caps rest.
Proof.
  revert s caps. induction p as [|[lit|cls] p IH]; intros s caps H; simpl in H.
  - injection H as <-. exists s. constructor.
  - destruct (Str.stripPrefix (Str.chars lit) s) as [s'|] eqn:Hs; [|discriminate].
    apply stripPrefix_spec in Hs as ->.
    destruct (IH _ _ H) as [rest Hm]. exists rest. now constructor.
  - apply greedyPlus_sound in H as (cap & rest0 & -> & Hne & Hall & Hk & _).
    destruct (matchHere p rest0) as [caps0|] eqn:Hm; [|discriminate].
    injection Hk as <-.
    destruct (IH _ _ Hm) as [rest Hr]. exists rest. now constructor.
Qed.

(** The matcher misses no match: backtracking is exhaustive. *)
Lemma matchHere_complete (p : pattern) (s : list ascii) (caps : list string)
    (rest : list ascii) :
  Matches p s caps rest -> exists caps', matchHere p s = Some caps'.
Proof.
  induction 1 as [s|lit p s caps rest _ [caps' IH]
                 |cls p cap s caps rest Hne Hall _ [caps' IH]]; simpl.
  - now exists [].
  - rewrite stripPrefix_app. now exists caps'.
  - eapply greedyPlus_complete; eauto. simpl. now rewrite IH.
Qed.

Lemma Matches_groups (p : pattern) (s : list ascii) (caps : list string)
    (rest : list ascii) :
  Matches p s caps rest -> length caps = groups p.
Proof. induction 1; simpl; congruence. Qed.

(** [search] returns the match at the leftmost start position. *)
Lemma search_sound (p : pattern) (s : list ascii) (caps : list string) :
  search p s = Some caps ->
  exists pre suf,
    s = pre ++ suf /\ matchHere p suf = Some caps /\
    forall pre' suf', s = pre' ++ suf' -> length pre' < length pre ->
      matchHere p suf' = None.
Proof.
  induction s as [|c s IH]; simpl; intros H.
  - destruct (matchHere p []) eqn:Hm; [|discriminate]. injection H as ->.
    exists [], []. split; [reflexivity|]. split; [exact Hm|].
    intros ? ? _ Hl. simpl in Hl. lia.
  - destruct (matchHere p (c :: s)) eqn:Hm.
    + injection H as ->. exists [], (c :: s).
      split; [reflexivity|]. split; [exact Hm|].
      intros ? ? _ Hl. simpl in Hl. lia.
    + destruct (IH H) as (pre & suf & -> & Hs & Hleft).
      exists (c :: pre), suf. split; [reflexivity|]. split; [exact Hs|].
      intros [|c' pre'] suf' Heq Hl; simpl in Heq.
      * now subst suf'.
      * injection Heq as <- Heq. apply (Hleft pre' suf' Heq). simpl in Hl. lia.
Qed.

Lemma search_complete (p : pattern) (pre suf : list ascii) (caps : list string) :
  matchHere p suf = Some caps -> exists caps', search p (pre ++ suf) = Some caps'.
Proof.
  intros H. induction pre as [|c pre [caps' IH]]; simpl.
  - destruct suf; simpl; rewrite H; now exists caps.
  - destruct (matchHere p (c :: pre ++ suf)) as [caps0|]; [now exists caps0|].
    now exists caps'.
Qed.

Lemma search_leftmost (p : pattern) (pre suf : list ascii) (caps : list string) :
  matchHere p suf = Some caps ->
  (forall pre' suf', pre ++ suf = pre' ++ suf' -> length pre' < length pre ->
     matchHere p suf' = None) ->
  search p (pre ++ suf) = Some caps.
Proof.
  intros H. induction pre as [|c pre IH]; intros Hleft; simpl.
  - destruct suf; simpl; now rewrite H.
  - rewrite (Hleft [] (c :: pre ++ suf)); [|reflexivity|simpl; lia].
    apply IH. intros pre' suf' Heq Hl.
    apply (Hleft (c :: pre') suf'); simpl; [now rewrite Heq | lia].
Qed.

(** A pattern is found in a string exactly when some suffix of the string
    starts with a match of it. *)
Lemma test_spec (p : pattern) (s : string) :
  test p s = true <->
  exists pre suf caps rest, Str.chars s = pre ++ suf /\ Matches p suf caps rest.
Proof.
  unfold test, exec. split.
  - destruct (search p (Str.chars s)) as [caps|] eqn:H; [|discriminate].
    intros _. apply search_sound in H as (pre & suf & Heq & Hm & _).
    apply matchHere_sound in Hm as [rest Hm]. now exists pre, suf, caps, rest.
  - intros (pre & suf & caps & rest & -> & Hm).
    apply matchHere_complete in Hm as [caps' Hm].
    destruct (search_complete p pre suf caps' Hm) as [caps'' ->]. reflexivity.
Qed.

(** [exec] yields one string per group of the pattern. *)
Lemma exec_groups (p : pattern) (s : string) (m : list string) :
  exec p s = Some m -> length m = groups p.
Proof.
  unfold exec. intros H. apply search_sound in H as (pre & suf & _ & Hm & _).
  apply matchHere_sound in Hm as [rest Hm]. now apply Matches_groups in Hm.
Qed.

(** ** The kind of a resolved literal *)

Lemma bind_Ok {A B : Type} (r : result A) (k : A -> result B) (b : B) :
  bind r k = Ok b -> exists a, r = Ok a /\ k a = Ok b.
Proof. destruct r as [a|e]; simpl; [now exists a | discriminate]. Qed.

Lemma readParamValue_typeOf (w : L) (name : string) (v : option ParamValue)
    (l : Literal) :
  readParamValue w name v = Ok l -> typeOf l = w.
Proof.
  unfold readParamValue. intros H.
  apply bind_Ok in H as (_ & _ & H).
  destruct w, v as [pv|]; simpl in H; try discriminate; now injection H as <-.
Qed.

Lemma resolveLiteral_typeOf (w : L) (value : string) (l : Literal) :
  resolveLiteral w value = Ok l -> typeOf l = w.
Proof.
  unfold resolveLiteral.
  destruct (exec paramRegexp value); [discriminate|].
  destruct w.
  - destruct (_ || _); [discriminate|]. now intros [= <-].
  - destruct (isNaN _); [discriminate|]. now intros [= <-].
  - destruct (String.eqb value "true"); [now intros [= <-]|].
    destruct (String.eqb value "false"); [now intros [= <-]|discriminate].
Qed.

Lemma resolveParamOrLiteral_typeOf (params : gmap string ParamValue) (w : L)
    (field : string) (l : Literal) :
  resolveParamOrLiteral params w field = Ok l -> typeOf l = w.
Proof.
  unfold resolveParamOrLiteral. destruct (exec paramRegexp field).
  - apply readParamValue_typeOf.
  - apply resolveLiteral_typeOf.
Qed.

Lemma resolveIdentity_typeOf (params : gmap string ParamValue) (w : L)
    (expr : string) (l : Literal) :
  resolveIdentity params w expr = Ok l -> typeOf l = w.
Proof.
  unfold resolveIdentity. destruct (exec identityRegexp expr); [|discriminate].
  destruct (params !! _); [|discriminate]. apply readParamValue_typeOf.
Qed.

Lemma resolveTernary_typeOf (params : gmap string ParamValue) (w : L)
    (expr : string) (l : Literal) :
  resolveTernary params w expr = Ok l -> typeOf l = w.
Proof.
  unfold resolveTernary. destruct (exec ternaryRegexp expr); [|discriminate].
  intros H. apply bind_Ok in H as ([|] & _ & H);
    now apply resolveParamOrLiteral_typeOf in H.
Qed.

Lemma resolveLiteralTernary_typeOf (params : gmap string ParamValue) (w : L)
    (expr : string) (l : Literal) :
  resolveLiteralTernary params w expr = Ok l -> typeOf l = w.
Proof.
  unfold resolveLiteralTernary.
  destruct (exec literalTernaryRegexp expr); [|discriminate].
  destruct (params !! _) as [pv|]; [|discriminate].
  destruct (negb (legalBoolean pv)); [discriminate|].
  destruct (asBoolean pv); apply resolveParamOrLiteral_typeOf.
Qed.

(** The entry point is the resolver of the shape [classify] finds. *)
Lemma resolveExpression_classify (params : gmap string ParamValue) (w : L)
    (expr : string) :
  resolveExpression params w expr =
  match classify expr with
  | Some sh => resolverOf sh params w expr
  | None => Throw (unsupportedForm expr)
  end.
Proof.
  unfold resolveExpression, classify, shapeOrder, find, hasShape.
  destruct (isIdentityExpression expr); [reflexivity|].
  destruct (isTernaryExpression expr); [reflexivity|].
  destruct (isLiteralTernaryExpression expr); [reflexivity|].
  destruct (isDualEqualityExpression expr); [reflexivity|].
  destruct (isEqualityExpression expr); reflexivity.
Qed.

(** C1, as the code has it: a successful resolution through the identity,
    ternary or literal-ternary shape returns a literal of the wanted type;
    through the dual-equality or equality shape it returns a boolean,
    whatever the wanted type. *)
Theorem C1_kind_of_result (params : gmap string ParamValue) (w : L)
    (expr : string) (l : Literal) :
  resolveExpression params w expr = Ok l ->
  exists sh, classify expr = Some sh /\
    typeOf l = match sh with
               | Identity | Ternary | LiteralTernary => w
               | DualEquality | Equality => Lboolean
               end.
Proof.
  rewrite resolveExpression_classify.
  destruct (classify expr) as [sh|]; [|discriminate].
  intros H. exists sh. split; [reflexivity|]. destruct sh; simpl in H.
  - now apply resolveIdentity_typeOf in H.
  - now apply resolveTernary_typeOf in H.
  - now apply resolveLiteralTernary_typeOf in H.
  - apply bind_Ok in H as (b & _ & H). now injection H as <-.
  - apply bind_Ok in H as (b & _ & H). now injection H as <-.
Qed.

Lemma C1_kind_of_result_witness :
  resolveExpression {[ "flag" := booleanParam false ]} Lnumber
    "{{ params.flag ? 1 : 2 }}" = Ok (VNumber (StringToNumber "2")) /\
  exists sh, classify "{{ params.flag ? 1 : 2 }}" = Some sh /\
    typeOf (VNumber (StringToNumber "2")) =
      match sh with
      | Identity | Ternary | LiteralTernary => Lnumber
      | DualEquality | Equality => Lboolean
      end.
Proof.
  split; [vm_compute; reflexivity|].
  apply (C1_kind_of_result {[ "flag" := booleanParam false ]} Lnumber
           "{{ params.flag ? 1 : 2 }}").
  vm_compute. reflexivity.
Defined.

(** C1 as stated fails: an equality expression resolved with the wanted
    type string yields a boolean. *)
Lemma C1_counterexample :
  exists l,
    resolveExpression {[ "foo" := numberParam (StringToNumber "24") ]} Lstring
      "{{ params.foo == 24 }}" = Ok l /\
    typeOf l <> Lstring.
Proof. exists (VBoolean true). split; [vm_compute; reflexivity | discriminate]. Qed.

(** ** Dispatch *)

(** C2: the entry point tests the five patterns in the order identity,
    ternary, literal-ternary, dual-equality, equality, runs the resolver of
    the first shape that matches, and throws the unsupported-form error
    when none does. *)
Theorem C2_dispatch_order (params : gmap string ParamValue) (w : L)
    (expr : string) :
  shapeOrder = [Identity; Ternary; LiteralTernary; DualEquality; Equality] /\
  resolveExpression params w expr =
    match List.find (fun sh => hasShape sh expr) shapeOrder with
    | Some sh => resolverOf sh params w expr
    | None =>
        Throw (FirebaseError ("CEL expression '" +:+ expr
                 +:+ "' is of an unsupported form"))
    end /\
  (List.find (fun sh => hasShape sh expr) shapeOrder = None <->
   isIdentityExpression expr = false /\ isTernaryExpression expr = false /\
   isLiteralTernaryExpression expr = false /\
   isDualEqualityExpression expr = false /\ isEqualityExpression expr = false).
Proof.
  split; [reflexivity|]. split; [apply resolveExpression_classify|].
  unfold shapeOrder, find, hasShape.
  destruct (isIdentityExpression expr), (isTernaryExpression expr),
    (isLiteralTernaryExpression expr), (isDualEqualityExpression expr),
    (isEqualityExpression expr); intuition discriminate.
Qed.

(** ** Equality *)

(** [===] decides equality of strings and of booleans; on numbers it is
    the IEEE comparison. *)
Lemma strictEq_spec (x y : Literal) :
  strictEq x y = true <->
  match x, y with
  | VString a, VString b => a = b
  | VNumber a, VNumber b => SFeqb a b = true
  | VBoolean a, VBoolean b => a = b
  | _, _ => False
  end.
Proof.
  destruct x as [a|a|a], y as [b|b|b]; simpl; try (split; [discriminate|tauto]).
  - apply String.eqb_eq.
  - reflexivity.
  - apply Bool.eqb_true_iff.
Qed.

(** C3: for an equality expression whose left parameter is in the table,
    the type is the first true legality flag in the order string, number,
    boolean; the right-hand text is coerced to that type; the result is the
    boolean of the strict equality between the accessor value and the
    coerced literal; the resolution fails when no flag is true and when the
    coercion fails. *)
Theorem C3_equality_resolution (params : gmap string ParamValue)
    (expr : string) (m : list string) (lhsVal : ParamValue) :
  exec equalityRegexp expr = Some m ->
  params !! group 1 m = Some lhsVal ->
  match inferType lhsVal with
  | Some t =>
      match resolveLiteral t (group 2 m) with
      | Ok rhs =>
          resolveEquality params expr = Ok (strictEq (access t lhsVal) rhs)
      | Throw e => resolveEquality params expr = Throw e
      end
  | None =>
      resolveEquality params expr =
        Throw (FirebaseError ("could not infer type of param " +:+ group 1 m
                 +:+ " used in equality operation"))
  end.
Proof.
  intros Hm Hp. unfold resolveEquality, inferType. rewrite Hm, Hp.
  destruct (legalString lhsVal);
    [simpl; now destruct (resolveLiteral Lstring (group 2 m))|].
  destruct (legalNumber lhsVal);
    [simpl; now destruct (resolveLiteral Lnumber (group 2 m))|].
  destruct (legalBoolean lhsVal);
    [simpl; now destruct (resolveLiteral Lboolean (group 2 m))|].
  reflexivity.
Qed.

Lemma C3_equality_resolution_witness :
  exec equalityRegexp "{{ params.foo == 24 }}" = Some ["foo"; "24"] /\
  ({[ "foo" := numberParam (StringToNumber "24") ]} : gmap string ParamValue)
    !! "foo" = Some (numberParam (StringToNumber "24")) /\
  resolveEquality {[ "foo" := numberParam (StringToNumber "24") ]}
    "{{ params.foo == 24 }}" = Ok true.
Proof.
  split; [vm_compute; reflexivity|]. split; [vm_compute; reflexivity|].
  exact (C3_equality_resolution
           {[ "foo" := numberParam (StringToNumber "24") ]}
           "{{ params.foo == 24 }}" ["foo"; "24"]
           (numberParam (StringToNumber "24")) eq_refl eq_refl).
Defined.

(** ** Dual equality *)

(** C5: for a dual-equality expression whose two parameters are in the
    table, with the type inferred from the first one: when that type is not
    legal for the second parameter the resolution throws the type-mismatch
    error, and so returns neither true nor false; when it is legal the
    result is the equality of the two accessor values of that type.  The
    entry point behaves the same on an expression it classifies as a dual
    equality. *)
Theorem C5_dual_equality (params : gmap string ParamValue) (w : L)
    (expr : string) (m : list string) (lhsVal rhsVal : ParamValue) (t : L) :
  exec dualEqualityRegexp expr = Some m ->
  params !! group 1 m = Some lhsVal ->
  params !! group 2 m = Some rhsVal ->
  inferType lhsVal = Some t ->
  let mismatch :=
    FirebaseError ("CEL equality expression " +:+ expr
                   +:+ " has type mismatch between the operands") in
  let answer := strictEq (access t lhsVal) (access t rhsVal) in
  (legal t rhsVal = false ->
     resolveDualEquality params expr = Throw mismatch /\
     (forall b, resolveDualEquality params expr <> Ok b) /\
     (classify expr = Some DualEquality ->
      resolveExpression params w expr = Throw mismatch)) /\
  (legal t rhsVal = true ->
     resolveDualEquality params expr = Ok answer /\
     (classify expr = Some DualEquality ->
      resolveExpression params w expr = Ok (VBoolean answer))).
Proof.
  intros Hm Hl Hr Ht mismatch answer.
  assert (Hres : resolveDualEquality params expr =
                 if legal t rhsVal then Ok answer else Throw mismatch).
  { unfold resolveDualEquality, answer, mismatch, typeMismatch, looseEqSameType.
    rewrite Hm, Hl, Hr. unfold inferType in Ht.
    destruct (legalString lhsVal);
      [injection Ht as <-; simpl; now destruct (legalString rhsVal)|].
    destruct (legalNumber lhsVal);
      [injection Ht as <-; simpl; now destruct (legalNumber rhsVal)|].
    destruct (legalBoolean lhsVal); [|discriminate].
    injection Ht as <-; simpl; now destruct (legalBoolean rhsVal). }
  split; intros Hlegal; rewrite Hlegal in Hres.
  - split; [exact Hres|]. split; [intros b; rewrite Hres; discriminate|].
    intros Hc. rewrite resolveExpression_classify, Hc. simpl. now rewrite Hres.
  - split; [exact Hres|].
    intros Hc. rewrite resolveExpression_classify, Hc. simpl. now rewrite Hres.
Qed.

Lemma C5_dual_equality_witness :
  exec dualEqualityRegexp "{{ params.foo == params.bar }}" = Some ["foo"; "bar"] /\
  fooBarTable !! "foo" = Some (stringParam "x") /\
  fooBarTable !! "bar" = Some (numberParam (StringToNumber "24")) /\
  inferType (stringParam "x") = Some Lstring /\
  legal Lstring (numberParam (StringToNumber "24")) = false /\
  classify "{{ params.foo == params.bar }}" = Some DualEquality /\
  resolveExpression fooBarTable Lboolean "{{ params.foo == params.bar }}" =
    Throw (FirebaseError
             ("CEL equality expression " +:+ "{{ params.foo == params.bar }}"
              +:+ " has type mismatch between the operands")).
Proof.
  assert (Hc : classify "{{ params.foo == params.bar }}" = Some DualEquality)
    by (vm_compute; reflexivity).
  repeat (split; [vm_compute; reflexivity|]).
  destruct (C5_dual_equality fooBarTable Lboolean
              "{{ params.foo == params.bar }}" ["foo"; "bar"]
              (stringParam "x") (numberParam (StringToNumber "24")) Lstring
              eq_refl eq_refl eq_refl eq_refl) as [Hbad _].
  destruct (Hbad eq_refl) as (_ & _ & Hentry). exact (Hentry Hc).
Defined.

(** ** Branches that name a parameter *)

(** A branch that names a parameter missing from the table is handed to
    [readParamValue] as [undefined]: what is thrown is the engine's
    [TypeError] on the read of the flag of the wanted type. *)
Lemma resolveParamOrLiteral_absent (params : gmap string ParamValue) (w : L)
    (field : string) (m : list string) :
  exec paramRegexp field = Some m ->
  params !! group 1 m = None ->
  resolveParamOrLiteral params w field =
    Throw (TypeError (match w with
                      | Lstring => "legalString"
                      | Lnumber => "legalNumber"
                      | Lboolean => "legalBoolean"
                      end)).
Proof.
  intros Hm Hp. unfold resolveParamOrLiteral. rewrite Hm, Hp. now destruct w.
Qed.

(** C6 fails on the code: a selected branch that names an absent parameter
    raises a [TypeError], in the ternary and in the literal-ternary shape,
    where the identity shape throws its descriptive error for the same
    absent name. *)
Theorem C6_absent_branch_parameter :
  resolveExpression (flagTable true) Lnumber
    "{{ params.flag ? params.missing : 2 }}" = Throw (TypeError "legalNumber") /\
  resolveExpression (flagTable true) Lstring
    "{{ params.flag == true ? params.missing : 2 }}"
    = Throw (TypeError "legalString") /\
  resolveExpression (flagTable true) Lnumber "{{ params.missing }}" =
    Throw (FirebaseError ("CEL identity expression '" +:+ "{{ params.missing }}"
                          +:+ "' was not resolvable to a param")).
Proof. repeat split; vm_compute; reflexivity. Qed.

(** ** Number literals *)

(** C8 fails on the code: the empty text and a text of white space coerce
    to the number zero, so that an equality with nothing on its right-hand
    side holds for a parameter that is zero; a text with something after
    the digits is refused. *)
Theorem C8_blank_number_literal :
  resolveLiteral Lnumber EmptyString = Ok (VNumber (S754_zero false)) /\
  resolveLiteral Lnumber "   " = Ok (VNumber (S754_zero false)) /\
  resolveExpression {[ "n" := numberParam (S754_zero false) ]} Lboolean
    "{{ params.n ==   }}" = Ok (VBoolean true) /\
  resolveLiteral Lnumber "12px" =
    Throw (FirebaseError "CEL literal 12px does not seem to be a number").
Proof. repeat split; vm_compute; reflexivity. Qed.

(** ** The close marker of the ternary shapes *)

(** C9 fails on the code: the two ternary patterns end in one closing
    brace, so an expression closed by a single brace, which
    [isCelExpression] refuses, is classified as a ternary, or as a literal
    ternary, and resolves. *)
Theorem C9_single_brace_ternary :
  isCelExpression "{{ params.foo == 1 ? 2 : 3 }" = false /\
  isTernaryExpression "{{ params.foo == 1 ? 2 : 3 }" = true /\
  classify "{{ params.foo == 1 ? 2 : 3 }" = Some Ternary /\
  resolveExpression {[ "foo" := numberParam (StringToNumber "1") ]} Lnumber
    "{{ params.foo == 1 ? 2 : 3 }" = Ok (VNumber (StringToNumber "2")) /\
  isCelExpression "{{ params.flag ? 1 : 2 }" = false /\
  isLiteralTernaryExpression "{{ params.flag ? 1 : 2 }" = true /\
  classify "{{ params.flag ? 1 : 2 }" = Some LiteralTernary /\
  resolveExpression (flagTable true) Lnumber "{{ params.flag ? 1 : 2 }" =
    Ok (VNumber (StringToNumber "1")).
Proof. repeat split; vm_compute; reflexivity. Qed.

(** ** String literals *)

Lemma chars_quoted (body : string) :
  Str.chars (Str.quoted body) = Str.DQUOTE :: Str.chars body ++ [Str.DQUOTE].
Proof.
  unfold Str.quoted. change (Str.chars (String ?c ?s)) with (c :: Str.chars s).
  now rewrite chars_append.
Qed.

Lemma startsWith_quoted (body : string) :
  Str.startsWith (Str.quoted body) (dquote) = true.
Proof. unfold Str.startsWith. now rewrite chars_quoted. Qed.

Lemma endsWith_quoted (body : string) :
  Str.endsWith (Str.quoted body) (dquote) = true.
Proof.
  unfold Str.endsWith. rewrite chars_quoted.
  change (Str.DQUOTE :: Str.chars body ++ [Str.DQUOTE])
    with ((Str.DQUOTE :: Str.chars body) ++ [Str.DQUOTE]).
  now rewrite rev_app_distr.
Qed.

(** [slice(1, -1)] removes the two delimiters and leaves the body as it is. *)
Lemma slice_quoted (body : string) : Str.slice (Str.quoted body) 1 (-1) = body.
Proof.
  unfold Str.slice. rewrite <- chars_length, chars_quoted.
  set (cs := Str.chars body).
  assert (Hlen : Z.of_nat (length (Str.DQUOTE :: cs ++ [Str.DQUOTE]))
                 = (Z.of_nat (length cs) + 2)%Z).
  { simpl length. rewrite length_app. simpl. lia. }
  rewrite Hlen. unfold Str.clampIndex.
  change (1 <? 0)%Z with false. change (-1 <? 0)%Z with true. cbv iota.
  replace (Z.min 1 (Z.of_nat (length cs) + 2)) with 1%Z by lia.
  replace (Z.max (Z.max (Z.of_nat (length cs) + 2 + -1) 0 - 1) 0)
    with (Z.of_nat (length cs)) by lia.
  rewrite Nat2Z.id. change (Z.to_nat 1) with 1.
  change (skipn 1 (Str.DQUOTE :: cs ++ [Str.DQUOTE])) with (cs ++ [Str.DQUOTE]).
  rewrite firstn_app, firstn_all, Nat.sub_diag. simpl.
  rewrite app_nil_r. apply ofChars_chars.
Qed.

(** A text of two characters or more that starts and ends with a double
    quote is a quoted body. *)
Lemma quoted_of_delimiters (value : string) :
  2 <= String.length value ->
  Str.startsWith value (dquote) = true ->
  Str.endsWith value (dquote) = true ->
  exists body, value = Str.quoted body.
Proof.
  unfold Str.startsWith, Str.endsWith. rewrite <- chars_length.
  intros Hlen Hs He.
  apply isPrefix_spec in Hs as [r Hr]. apply isPrefix_spec in He as [r' Hr'].
  simpl in Hr, Hr'.
  apply (f_equal (@rev ascii)) in Hr'. rewrite rev_involutive in Hr'.
  simpl in Hr'. rewrite Hr in Hr', Hlen.
  destruct (rev r') as [|c x].
  - injection Hr' as ->. simpl in Hlen. lia.
  - injection Hr' as <- ->. exists (Str.ofChars x).
    apply chars_inj. now rewrite Hr, chars_quoted, chars_ofChars.
Qed.

(** C7, as the code has it: on a text without a parameter reference, the
    string coercion of a body between two double quotes succeeds and
    returns the body unchanged, and a successful string coercion of a text
    of two characters or more is the coercion of such a quoted body. *)
Theorem C7_string_coercion (value : string) :
  exec paramRegexp value = None ->
  (forall body, value = Str.quoted body ->
     resolveLiteral Lstring value = Ok (VString body)) /\
  (forall l, 2 <= String.length value ->
     resolveLiteral Lstring value = Ok l ->
     exists body, value = Str.quoted body /\ l = VString body).
Proof.
  intros Hp. unfold resolveLiteral. rewrite Hp. split.
  - intros body ->.
    now rewrite startsWith_quoted, endsWith_quoted, slice_quoted.
  - intros l Hlen H.
    destruct (Str.startsWith value _) eqn:Hs; [|discriminate].
    destruct (Str.endsWith value _) eqn:He; [|discriminate].
    simpl in H. injection H as <-.
    destruct (quoted_of_delimiters value Hlen Hs He) as [body ->].
    exists body. now rewrite slice_quoted.
Qed.

Lemma C7_string_coercion_witness :
  exec paramRegexp (Str.quoted "jkl;") = None /\
  resolveLiteral Lstring (Str.quoted "jkl;") = Ok (VString "jkl;").
Proof.
  split; [vm_compute; reflexivity|].
  exact (proj1 (C7_string_coercion (Str.quoted "jkl;") eq_refl) "jkl;" eq_refl).
Defined.

(** C7 as stated fails: a text between two double quotes that holds a
    parameter reference is refused. *)
Lemma C7_counterexample :
  ~ ((exists l, resolveLiteral Lstring (Str.quoted "params.x") = Ok l) <->
     (exists body, Str.quoted "params.x" = Str.quoted body)).
Proof.
  intros [_ H]. destruct H as [l Hl]; [now exists "params.x"|].
  vm_compute in Hl. discriminate.
Qed.

(** The text made of one double quote starts and ends with it: it coerces
    to the empty string. *)
Lemma resolveLiteral_single_quote :
  resolveLiteral Lstring (dquote) = Ok (VString EmptyString).
Proof. vm_compute. reflexivity. Qed.

(** ** Parameter references inside a text *)

Lemma ofChars_app (x y : list ascii) :
  Str.ofChars (x ++ y) = Str.ofChars x +:+ Str.ofChars y.
Proof.
  apply chars_inj. now rewrite chars_append, !chars_ofChars.
Qed.

(** A match of [paramRegexp] at the start of a text: the seven characters
    [params.], then the whole run of non-space characters that follows. *)
Lemma paramRegexp_matchHere (s : list ascii) (m : list string) :
  matchHere paramRegexp s = Some m ->
  exists cap rest,
    s = Str.chars "params." ++ cap ++ rest /\ cap <> [] /\
    forallb nonSpace cap = true /\ m = [Str.ofChars cap] /\
    (rest = [] \/ exists d r, rest = d :: r /\ isWhiteSpace d = true).
Proof.
  unfold paramRegexp. cbn [matchHere]. intros H.
  destruct (Str.stripPrefix (Str.chars "params.") s) as [s'|] eqn:Hs; [|discriminate].
  apply stripPrefix_spec in Hs as ->.
  apply greedyPlus_sound in H as (cap & rest & -> & Hne & Hall & Hk & Hmax).
  injection Hk as <-. exists cap, rest. repeat split; try easy.
  destruct rest as [|d r]; [now left|right].
  exists d, r. split; [reflexivity|].
  destruct (isWhiteSpace d) eqn:Hd; [reflexivity|].
  specialize (Hmax (cap ++ [d]) r). rewrite <- app_assoc in Hmax.
  discriminate Hmax; [reflexivity | rewrite length_app; simpl; lia |].
  rewrite forallb_app, Hall. simpl. unfold nonSpace. now rewrite Hd.
Qed.

Lemma paramRegexp_here (c : ascii) (b : list ascii) :
  nonSpace c = true ->
  exists m, matchHere paramRegexp (Str.chars "params." ++ c :: b) = Some m.
Proof.
  intros Hc. apply (matchHere_complete _ _ [Str.ofChars [c]] b).
  unfold paramRegexp. constructor.
  apply (MatchesGroup nonSpace [] [c] b [] b); [discriminate| |constructor].
  simpl. now rewrite Hc.
Qed.

(** Where [paramRegexp] finds its match in a text that holds [params.]
    followed by a non-space character: at the leftmost such place, and the
    group is the whole run of non-space characters there. *)
Lemma paramRegexp_exec (a b : string) (c : ascii) :
  nonSpace c = true ->
  exists pre name rest,
    a +:+ "params." +:+ String c b = pre +:+ "params." +:+ name +:+ rest /\
    String.length pre <= String.length a /\
    name <> EmptyString /\ forallb nonSpace (Str.chars name) = true /\
    (rest = EmptyString \/ exists d r, rest = String d r /\ isWhiteSpace d = true) /\
    exec paramRegexp (a +:+ "params." +:+ String c b) = Some [name].
Proof.
  intros Hc. set (field := a +:+ "params." +:+ String c b).
  assert (Hf : Str.chars field
               = Str.chars a ++ Str.chars "params." ++ c :: Str.chars b).
  { unfold field. now rewrite !chars_append. }
  destruct (paramRegexp_here c (Str.chars b) Hc) as [m0 Hm0].
  destruct (search_complete paramRegexp (Str.chars a) _ m0 Hm0) as [m Hm].
  rewrite <- Hf in Hm.
  destruct (search_sound _ _ _ Hm) as (pre & suf & Heq & Hhere & Hleft).
  apply paramRegexp_matchHere in Hhere
    as (cap & rest & -> & Hne & Hall & -> & Hrest).
  exists (Str.ofChars pre), (Str.ofChars cap), (Str.ofChars rest).
  split; [|split; [|split; [|split; [|split]]]].
  - apply chars_inj. now rewrite Heq, !chars_append, !chars_ofChars.
  - rewrite <- !chars_length, chars_ofChars.
    destruct (Nat.le_gt_cases (length pre) (length (Str.chars a))) as [Hle|Hgt];
      [exact Hle|].
    rewrite (Hleft _ _ Hf Hgt) in Hm0. discriminate.
  - intros Hempty. apply (f_equal Str.chars) in Hempty.
    rewrite chars_ofChars in Hempty. contradiction.
  - now rewrite chars_ofChars.
  - destruct Hrest as [->|(d & r & -> & Hd)]; [now left|right].
    now exists d, (Str.ofChars r).
  - exact Hm.
Qed.

(** C10: a text that holds [params.] followed by a non-space character,
    anywhere in it, counts as a parameter reference.  The literal coercion
    refuses it for every wanted type, and the Param-or-Literal rule looks up
    the name captured at the leftmost such place, which is the whole run of
    non-space characters after [params.] there. *)
Theorem C10_reference_anywhere (params : gmap string ParamValue) (w : L)
    (a b : string) (c : ascii) :
  nonSpace c = true ->
  exists pre name rest,
    a +:+ "params." +:+ String c b = pre +:+ "params." +:+ name +:+ rest /\
    String.length pre <= String.length a /\
    name <> EmptyString /\ forallb nonSpace (Str.chars name) = true /\
    (rest = EmptyString \/ exists d r, rest = String d r /\ isWhiteSpace d = true) /\
    resolveLiteral w (a +:+ "params." +:+ String c b) =
      Throw (FirebaseError
               ("CEL tried to evaluate param." +:+ (a +:+ "params." +:+ String c b)
                +:+ " in a context which only permits literal values")) /\
    resolveParamOrLiteral params w (a +:+ "params." +:+ String c b) =
      readParamValue w name (params !! name).
Proof.
  intros Hc.
  destruct (paramRegexp_exec a b c Hc)
    as (pre & name & rest & Heq & Hlen & Hne & Hall & Hrest & Hexec).
  exists pre, name, rest. repeat (split; [assumption|]).
  unfold resolveLiteral, resolveParamOrLiteral. rewrite Hexec. now split.
Qed.

(** A quoted branch that holds a reference is not a string literal: its
    closing quote ends up in the name that is looked up. *)
Lemma C10_reference_anywhere_witness :
  nonSpace "x" = true /\
  exists pre name rest,
    dquote +:+ "params." +:+ String "x" (dquote)
      = pre +:+ "params." +:+ name +:+ rest /\
    String.length pre <= String.length (dquote) /\
    name <> EmptyString /\ forallb nonSpace (Str.chars name) = true /\
    (rest = EmptyString \/ exists d r, rest = String d r /\ isWhiteSpace d = true) /\
    resolveLiteral Lstring
      (dquote +:+ "params." +:+ String "x" (dquote)) =
      Throw (FirebaseError
               ("CEL tried to evaluate param."
                +:+ (dquote +:+ "params."
                     +:+ String "x" (dquote))
                +:+ " in a context which only permits literal values")) /\
    resolveParamOrLiteral (flagTable true) Lstring
      (dquote +:+ "params." +:+ String "x" (dquote)) =
      readParamValue Lstring name (flagTable true !! name).
Proof.
  split; [reflexivity|].
  exact (C10_reference_anywhere (flagTable true) Lstring
           (dquote) (dquote) "x" eq_refl).
Defined.

Lemma quoted_reference_not_a_literal (params : gmap string ParamValue) :
  exec paramRegexp (Str.quoted "params.x") = Some [String "x" (dquote)] /\
  (exists msg, resolveLiteral Lstring (Str.quoted "params.x")
               = Throw (FirebaseError msg)) /\
  resolveParamOrLiteral params Lstring (Str.quoted "params.x") =
    readParamValue Lstring (String "x" (dquote))
      (params !! String "x" (dquote)).
Proof.
  split; [vm_compute; reflexivity|]. split.
  - eexists. vm_compute. reflexivity.
  - unfold resolveParamOrLiteral.
    replace (exec paramRegexp (Str.quoted "params.x"))
      with (Some [String "x" (dquote)]) by (vm_compute; reflexivity).
    reflexivity.
Qed.

(** ** Ternary *)

Lemma matchHere_Chars (lit : string) (p : pattern) (s : list ascii) :
  matchHere (Chars lit :: p) (Str.chars lit ++ s) = matchHere p s.
Proof. cbn [matchHere]. now rewrite stripPrefix_app. Qed.

Lemma stripPrefix_short (p s : list ascii) :
  length s < length p -> Str.stripPrefix p s = None.
Proof.
  intros Hlen. destruct (Str.stripPrefix p s) as [r|] eqn:H; [|reflexivity].
  apply stripPrefix_spec in H as ->. rewrite length_app in Hlen. lia.
Qed.

Lemma matchHere_Chars_short (lit : string) (p : pattern) (s : list ascii) :
  length s < length (Str.chars lit) -> matchHere (Chars lit :: p) s = None.
Proof. intros Hlen. cbn [matchHere]. now rewrite stripPrefix_short. Qed.

(** A group takes [cap] when the rest of the pattern matches after it and
    after no longer run of the class. *)
Lemma matchHere_Group (cls : ascii -> bool) (p : pattern)
    (cap rest : list ascii) (caps : list string) :
  cap <> [] -> forallb cls cap = true ->
  matchHere p rest = Some caps ->
  (forall cap' rest', cap ++ rest = cap' ++ rest' -> length cap < length cap' ->
     forallb cls cap' = true -> matchHere p rest' = None) ->
  matchHere (Group cls :: p) (cap ++ rest) = Some (Str.ofChars cap :: caps).
Proof.
  intros Hne Hall Hm Hmax. cbn [matchHere].
  apply greedyPlus_longest; try assumption.
  - now rewrite Hm.
  - intros cap' rest' Heq Hlen Hall'. now rewrite (Hmax cap' rest' Heq Hlen Hall').
Qed.

Lemma longer_prefix {A : Type} (cap r cap' rest' : list A) (d : A) :
  cap ++ d :: r = cap' ++ rest' -> length cap < length cap' ->
  exists x, cap' = cap ++ d :: x.
Proof.
  revert cap'. induction cap as [|a cap IH]; intros [|c' cap'] Heq Hlen;
    simpl in *; try lia.
  - injection Heq as -> _. now exists cap'.
  - injection Heq as -> Heq. destruct (IH cap' Heq) as [x ->]; [lia|].
    now exists x.
Qed.

(** The groups of a ternary match: a name without white space and three
    texts without line terminators, none of them empty. *)
Lemma ternaryRegexp_groups (expr : string) (m : list string) :
  exec ternaryRegexp expr = Some m ->
  exists c1 c2 c3 c4,
    m = [Str.ofChars c1; Str.ofChars c2; Str.ofChars c3; Str.ofChars c4] /\
    (c1 <> [] /\ forallb nonSpace c1 = true) /\
    (c2 <> [] /\ forallb dot c2 = true) /\
    (c3 <> [] /\ forallb dot c3 = true) /\
    (c4 <> [] /\ forallb dot c4 = true).
Proof.
  unfold exec. intros H. apply search_sound in H as (pre & suf & _ & H & _).
  apply matchHere_sound in H as [rest H]. unfold ternaryRegexp in H.
  invert_matches.
  eexists _, _, _, _. split; [reflexivity|]. now repeat split.
Qed.

(** The synthetic equality expression is read back by [equalityRegexp] as
    the name and the right-hand text it was built from. *)
Lemma equalityRegexp_synthetic (c1 c2 : list ascii) :
  c1 <> [] -> forallb nonSpace c1 = true ->
  c2 <> [] -> forallb dot c2 = true ->
  exec equalityRegexp (syntheticEquality (Str.ofChars c1) (Str.ofChars c2))
    = Some [Str.ofChars c1; Str.ofChars c2].
Proof.
  intros Hne1 Hall1 Hne2 Hall2. unfold exec, syntheticEquality.
  rewrite !chars_append, !chars_ofChars.
  match goal with
  | |- search _ ?s = _ =>
      apply (search_leftmost equalityRegexp [] s);
        [|intros ? ? _ Hl; simpl in Hl; lia]
  end.
  unfold equalityRegexp. rewrite matchHere_Chars.
  apply matchHere_Group; try assumption.
  - rewrite matchHere_Chars. apply matchHere_Group; try assumption; [reflexivity|].
    intros cap' rest' Heq Hlen _.
    apply (f_equal (@length ascii)) in Heq. rewrite !length_app in Heq.
    apply matchHere_Chars_short. simpl in *. lia.
  - intros cap' rest' Heq Hlen Hall'. exfalso.
    change (Str.chars " == ") with (" "%char :: Str.chars "== ") in Heq.
    apply longer_prefix in Heq as [x ->]; [|exact Hlen].
    rewrite forallb_app in Hall'. simpl in Hall'.
    apply andb_true_iff in Hall' as [_ Hall']. discriminate.
Qed.

(** C4: for a ternary expression the condition is the result of the
    equality resolver on the synthetic expression built from the name and
    the right-hand text, which that resolver reads back as the same name and
    text; a true condition gives the resolution of the THEN field and a
    false one the resolution of the ELSE field, both by the Param-or-Literal
    rule at the wanted type; a failure of the condition is the failure of
    the whole. *)
Theorem C4_ternary_resolution (params : gmap string ParamValue) (w : L)
    (expr : string) (m : list string) :
  exec ternaryRegexp expr = Some m ->
  let condition := "{{ params." +:+ group 1 m +:+ " == " +:+ group 2 m +:+ " }}" in
  exec equalityRegexp condition = Some [group 1 m; group 2 m] /\
  resolveTernary params w expr =
    match resolveEquality params condition with
    | Ok true => resolveParamOrLiteral params w (group 3 m)
    | Ok false => resolveParamOrLiteral params w (group 4 m)
    | Throw e => Throw e
    end /\
  (forall field,
     resolveParamOrLiteral params w field =
       match exec paramRegexp field with
       | Some r => readParamValue w (group 1 r) (params !! group 1 r)
       | None => resolveLiteral w field
       end).
Proof.
  intros Hm condition. split; [|split].
  - destruct (ternaryRegexp_groups expr m Hm)
      as (c1 & c2 & c3 & c4 & -> & [Hne1 Hall1] & [Hne2 Hall2] & _).
    now apply equalityRegexp_synthetic.
  - unfold resolveTernary. rewrite Hm. fold condition.
    now destruct (resolveEquality params condition) as [[|]|e].
  - intros field. unfold resolveParamOrLiteral.
    now destruct (exec paramRegexp field).
Qed.

Lemma C4_ternary_resolution_witness :
  exec ternaryRegexp "{{ params.foo == 24 ? params.bar : 7 }}"
    = Some ["foo"; "24"; "params.bar"; "7"] /\
  resolveTernary fooBarTable Lnumber "{{ params.foo == 24 ? params.bar : 7 }}" =
    match resolveEquality fooBarTable "{{ params.foo == 24 }}" with
    | Ok true => resolveParamOrLiteral fooBarTable Lnumber "params.bar"
    | Ok false => resolveParamOrLiteral fooBarTable Lnumber "7"
    | Throw e => Throw e
    end.
Proof.
  split; [vm_compute; reflexivity|].
  exact (proj1 (proj2 (C4_ternary_resolution fooBarTable Lnumber
                         "{{ params.foo == 24 ? params.bar : 7 }}"
                         ["foo"; "24"; "params.bar"; "7"] eq_refl))).
Defined.

(** ** Why the order of the tests matters *)

Lemma nonSpace_dot (c : ascii) : nonSpace c = true -> dot c = true.
Proof.
  unfold nonSpace, dot, isWhiteSpace. set (n := N_of_ascii c).
  destruct (N.eqb_spec n 10) as [->|_]; [discriminate|].
  destruct (N.eqb_spec n 13) as [->|_]; [discriminate|reflexivity].
Qed.

Lemma forallb_nonSpace_dot (l : list ascii) :
  forallb nonSpace l = true -> forallb dot l = true.
Proof.
  induction l as [|c l IH]; simpl; [reflexivity|].
  rewrite !andb_true_iff. intros [Hc Hl]. split; [now apply nonSpace_dot | auto].
Qed.

(** Every dual equality is an equality as well: tested after the equality
    pattern, the dual-equality pattern would never be reached. *)
Lemma dualEquality_isEquality (expr : string) :
  isDualEqualityExpression expr = true -> isEqualityExpression expr = true.
Proof.
  unfold isDualEqualityExpression, isEqualityExpression. rewrite !test_spec.
  intros (pre & suf & caps & rest & Heq & H). unfold dualEqualityRegexp in H.
  invert_matches.
  eexists pre, _, _, rest. split; [exact Heq|].
  unfold equalityRegexp. constructor.
  match goal with
  | Hn : forallb nonSpace ?c1 = true |- Matches _ (?c1 ++ _ ++ ?c2 ++ _) _ _ =>
      apply (MatchesGroup nonSpace _ c1); [assumption|assumption|];
      change (Str.chars " == params.")
        with (Str.chars " == " ++ Str.chars "params.");
      rewrite <- (app_assoc (Str.chars " == "));
      constructor;
      rewrite (app_assoc (Str.chars "params.") c2);
      apply (MatchesGroup dot _ (Str.chars "params." ++ c2));
        [discriminate| |now repeat constructor]
  end.
  rewrite forallb_app. simpl. now apply forallb_nonSpace_dot.
Qed.

(** A ternary closed by the two-character marker matches the equality
    pattern too; the entry point reaches the ternary resolver first. *)
Lemma ternary_before_equality :
  isEqualityExpression "{{ params.foo == 24 ? 1 : 2 }}" = true /\
  classify "{{ params.foo == 24 ? 1 : 2 }}" = Some Ternary /\
  isEqualityExpression "{{ params.foo == params.bar }}" = true /\
  classify "{{ params.foo == params.bar }}" = Some DualEquality.
Proof. repeat split; vm_compute; reflexivity. Qed.

(** The scenarios of the specification. *)
Lemma scenarios :
  resolveExpression {[ "foo" := stringParam "bar" ]} Lstring "{{ params.foo }}"
    = Ok (VString "bar") /\
  resolveExpression {[ "foo" := numberParam (StringToNumber "24") ]} Lboolean
    "{{ params.foo == 24 }}" = Ok (VBoolean true) /\
  resolveExpression {[ "foo" := stringParam "x" ]} Lstring
    ("{{ params.foo == " +:+ Str.quoted "x" +:+ " ? " +:+ Str.quoted "yes"
     +:+ " : " +:+ Str.quoted "no" +:+ " }}") = Ok (VString "yes") /\
  resolveExpression {[ "foo" := stringParam "z" ]} Lstring
    ("{{ params.foo == " +:+ Str.quoted "x" +:+ " ? " +:+ Str.quoted "yes"
     +:+ " : " +:+ Str.quoted "no" +:+ " }}") = Ok (VString "no") /\
  resolveExpression (flagTable false) Lnumber "{{ params.flag ? 1 : 2 }}"
    = Ok (VNumber (StringToNumber "2")).
Proof. repeat split; vm_compute; reflexivity. Qed.

(** Decimal texts round to the nearest binary64 value, ties to even. *)
Lemma StringToNumber_examples :
  StringToNumber "0.1" = S754_finite false 7205759403792794 (-56) /\
  StringToNumber "9007199254740993" = S754_finite false 4503599627370496 1 /\
  StringToNumber "5e-324" = S754_finite false 1 (-1074) /\
  StringToNumber "1.7976931348623159e308" = S754_infinity false /\
  StringToNumber "0x1F" = StringToNumber "31" /\
  StringToNumber "-0" = S754_zero true /\
  StringToNumber "1 2" = NaN.
Proof. repeat split; vm_compute; reflexivity. Qed.

(** * Expressions built from their operands *)

(** ** Names, texts and the characters they lack *)

Lemma isName_spec (s : string) :
  isName s = true -> Str.chars s <> [] /\ forallb nonSpace (Str.chars s) = true.
Proof.
  unfold isName. rewrite andb_true_iff, negb_true_iff. intros [Hne Hall].
  split; [|exact Hall]. intros Hnil. destruct s; [discriminate Hne|discriminate Hnil].
Qed.

Lemma isText_spec (s : string) :
  isText s = true -> Str.chars s <> [] /\ forallb dot (Str.chars s) = true.
Proof.
  unfold isText. rewrite andb_true_iff, negb_true_iff. intros [Hne Hall].
  split; [|exact Hall]. intros Hnil. destruct s; [discriminate Hne|discriminate Hnil].
Qed.

Lemma lacks_spec (c : ascii) (s : string) :
  lacks c s = true -> ~ In c (Str.chars s).
Proof.
  unfold lacks. rewrite forallb_forall. intros H Hin.
  specialize (H c Hin). now rewrite Ascii.eqb_refl in H.
Qed.


(** ** Matching from the first character *)

Lemma stripPrefix_cons_ne (a b : ascii) (p s : list ascii) :
  a <> b -> Str.stripPrefix (a :: p) (b :: s) = None.
Proof. intros Hne. cbn [Str.stripPrefix]. apply Ascii.eqb_neq in Hne. now rewrite Hne. Qed.

Lemma stripPrefix_cons_eq (a : ascii) (p s : list ascii) :
  Str.stripPrefix (a :: p) (a :: s) = Str.stripPrefix p s.
Proof. cbn [Str.stripPrefix]. now rewrite Ascii.eqb_refl. Qed.

Lemma search_here (p : pattern) (s : list ascii) (caps : list string) :
  matchHere p s = Some caps -> search p s = Some caps.
Proof.
  intros H. apply (search_leftmost p [] s caps H).
  intros ? ? _ Hl. simpl in Hl. lia.
Qed.

Lemma search_none (p : pattern) (s : list ascii) :
  (forall pre suf, s = pre ++ suf -> matchHere p suf = None) ->
  search p s = None.
Proof.
  intros H. destruct (search p s) as [caps|] eqn:Hs; [|reflexivity].
  apply search_sound in Hs as (pre & suf & Heq & Hm & _).
  rewrite (H pre suf Heq) in Hm. discriminate.
Qed.

(** In a text that opens with the two braces and holds no other opening
    brace, a pattern that begins with the open marker can match at the first
    character only. *)
Lemma search_marker_start (tail : pattern) (t : list ascii) :
  ~ In "{"%char t ->
  search (Chars "{{ params." :: tail) ("{"%char :: "{"%char :: t) =
  matchHere (Chars "{{ params." :: tail) ("{"%char :: "{"%char :: t).
Proof.
  intros Hno.
  destruct (matchHere (Chars "{{ params." :: tail) ("{"%char :: "{"%char :: t))
    as [caps|] eqn:H; [now apply search_here|].
  apply search_none. intros pre suf Heq.
  assert (Hfirst : forall c r, In c t -> suf = c :: r ->
            matchHere (Chars "{{ params." :: tail) suf = None).
  { intros c r Hin ->. cbn [matchHere].
    change (Str.chars "{{ params.") with ("{"%char :: Str.chars "{ params.").
    rewrite stripPrefix_cons_ne; [reflexivity|]. intros <-. contradiction. }
  destruct pre as [|x [|y pre]]; simpl in Heq.
  - now subst suf.
  - injection Heq as _ <-. cbn [matchHere].
    change (Str.chars "{{ params.")
      with ("{"%char :: "{"%char :: Str.chars " params.").
    rewrite stripPrefix_cons_eq. destruct t as [|c t]; [reflexivity|].
    rewrite stripPrefix_cons_ne; [reflexivity|].
    intros <-. apply Hno. now left.
  - injection Heq as _ _ ->. destruct suf as [|c r]; [reflexivity|].
    apply (Hfirst c r); [|reflexivity]. apply in_or_app. right. now left.
Qed.

(** Two runs without white space that end at a white space character end
    at the same one. *)
Lemma run_unique (a b x y : list ascii) (d e : ascii) :
  forallb nonSpace a = true -> forallb nonSpace b = true ->
  isWhiteSpace d = true -> isWhiteSpace e = true ->
  a ++ d :: x = b ++ e :: y -> a = b /\ x = y.
Proof.
  revert b. induction a as [|c a IH]; intros [|c' b] Ha Hb Hd He Heq;
    simpl in *.
  - now injection Heq as _ ->.
  - injection Heq as -> _. apply andb_true_iff in Hb as [Hc _].
    unfold nonSpace in Hc. rewrite Hd in Hc. discriminate.
  - injection Heq as -> _. apply andb_true_iff in Ha as [Hc _].
    unfold nonSpace in Hc. rewrite He in Hc. discriminate.
  - injection Heq as -> Heq.
    apply andb_true_iff in Ha as [_ Ha]. apply andb_true_iff in Hb as [_ Hb].
    destruct (IH b Ha Hb Hd He Heq) as [-> ->]. now split.
Qed.

(** The name group before a literal that begins with a space: it takes the
    whole run up to the space, or the match fails. *)
Lemma matchHere_name (lit : string) (l : list ascii) (p : pattern)
    (c1 rest : list ascii) :
  c1 <> [] -> forallb nonSpace c1 = true ->
  Str.chars lit = " "%char :: l ->
  matchHere (Group nonSpace :: Chars lit :: p) (c1 ++ " "%char :: rest) =
  match matchHere (Chars lit :: p) (" "%char :: rest) with
  | Some caps => Some (Str.ofChars c1 :: caps)
  | None => None
  end.
Proof.
  intros Hne Hall Hlit.
  destruct (matchHere (Chars lit :: p) (" "%char :: rest)) as [caps|] eqn:H.
  - apply matchHere_Group; try assumption.
    intros cap' rest' Heq Hlen Hall'. exfalso.
    apply longer_prefix in Heq as [x ->]; [|exact Hlen].
    rewrite forallb_app in Hall'. simpl in Hall'.
    apply andb_true_iff in Hall' as [_ Hall']. discriminate.
  - destruct (matchHere (Group nonSpace :: Chars lit :: p) (c1 ++ " "%char :: rest))
      as [m|] eqn:G; [exfalso|reflexivity].
    cbn [matchHere] in G, H.
    apply greedyPlus_sound in G as (cap & rest0 & Heq & _ & Hall0 & Hk & _).
    destruct (Str.stripPrefix (Str.chars lit) rest0) as [s'|] eqn:Hs;
      [|discriminate].
    apply stripPrefix_spec in Hs. rewrite Hlit in Hs. simpl in Hs. subst rest0.
    apply run_unique in Heq as [<- ->]; try easy.
    rewrite Hlit in H.
    change (" "%char :: l ++ s') with ((" "%char :: l) ++ s') in H.
    rewrite stripPrefix_app in H. rewrite H in Hk. discriminate.
Qed.


(** The last text group of an expression closed by the two-character
    marker, before the literal [ }}] and before the literal [ }]. *)
Lemma matchHere_text_close2 (c : list ascii) :
  c <> [] -> forallb dot c = true ->
  matchHere [Group dot; Chars " }}"] (c ++ Str.chars " }}") = Some [Str.ofChars c].
Proof.
  intros Hne Hall. apply matchHere_Group; try assumption; [reflexivity|].
  intros cap' rest' Heq Hlen _.
  apply (f_equal (@length ascii)) in Heq. rewrite !length_app in Heq.
  apply matchHere_Chars_short. simpl in *. lia.
Qed.


(** ** Identity *)




(** ** The patterns on an expression without inner braces *)

(** A match holds every character of every literal of its pattern. *)
Lemma Matches_literal_char (p : pattern) (s : list ascii) (caps : list string)
    (rest : list ascii) (lit : string) (m : ascii) :
  Matches p s caps rest -> In (Chars lit) p -> In m (Str.chars lit) -> In m s.
Proof.
  induction 1 as [s|lit0 p s caps rest _ IH|cls p cap s caps rest _ _ _ IH];
    intros Hp Hm.
  - destruct Hp.
  - apply in_or_app. destruct Hp as [Heq|Hp]; [injection Heq as ->; now left|].
    right. now apply IH.
  - apply in_or_app. destruct Hp as [Heq|Hp]; [discriminate|]. right. now apply IH.
Qed.

Lemma matchHere_lacks (p : pattern) (s : list ascii) (lit : string) (m : ascii) :
  In (Chars lit) p -> In m (Str.chars lit) -> ~ In m s -> matchHere p s = None.
Proof.
  intros Hp Hm Hno. destruct (matchHere p s) as [caps|] eqn:H; [exfalso|reflexivity].
  apply matchHere_sound in H as [rest H].
  apply Hno. now apply (Matches_literal_char p s caps rest lit m).
Qed.

Lemma matchHere_Chars_mismatch (lit : string) (p : pattern) (s : list ascii) :
  Str.stripPrefix (Str.chars lit) s = None -> matchHere (Chars lit :: p) s = None.
Proof. intros H. cbn [matchHere]. now rewrite H. Qed.

(** Every pattern of a shape is the open marker, the name group and a
    literal that begins with a space.  On an expression that begins with the
    marker and a name, and holds no brace before its close marker other than
    the two it opens with, such a pattern matches at the first character or
    not at all, and its first group is the name. *)
Lemma exec_after_name (tail : pattern) (lit : string) (l : list ascii)
    (name expr : string) (rest : list ascii) :
  isName name = true -> Str.chars lit = " "%char :: l ->
  Str.chars expr = Str.chars "{{ params." ++ Str.chars name ++ " "%char :: rest ->
  lacks "{" name = true -> ~ In "{"%char rest ->
  exec (Chars "{{ params." :: Group nonSpace :: Chars lit :: tail) expr =
  match matchHere (Chars lit :: tail) (" "%char :: rest) with
  | Some caps => Some (name :: caps)
  | None => None
  end.
Proof.
  intros Hn Hlit He Hb1 Hb2. apply isName_spec in Hn as [Hne Hall].
  apply lacks_spec in Hb1. unfold exec. rewrite He.
  change (Str.chars "{{ params." ++ Str.chars name ++ " "%char :: rest)
    with ("{"%char :: "{"%char
          :: (Str.chars " params." ++ Str.chars name ++ " "%char :: rest)).
  rewrite search_marker_start.
  - change ("{"%char :: "{"%char
            :: (Str.chars " params." ++ Str.chars name ++ " "%char :: rest))
      with (Str.chars "{{ params." ++ Str.chars name ++ " "%char :: rest).
    rewrite matchHere_Chars, (matchHere_name lit l); try assumption.
    now rewrite ofChars_chars.
  - rewrite !in_app_iff. simpl. intuition discriminate.
Qed.

(** Brings a pattern of a shape past the marker and the name of an
    expression, given the form of the expression and its lack of braces. *)
Ltac after_name Hn Hform Hb1 Hb :=
  match goal with
  | |- context [exec (Chars _ :: Group _ :: Chars ?lit :: ?tail) _] =>
      rewrite (exec_after_name tail lit (List.tl (Str.chars lit)) _ _ _
                 Hn eq_refl Hform Hb1 Hb)
  end.

(** Discharges the absence of a character from a text put together from
    literals and from operands known to lack it. *)
Ltac absent :=
  repeat match goal with
         | H : lacks _ _ = true |- _ => apply lacks_spec in H
         end;
  repeat (progress (simpl; rewrite ?in_app_iff)); intuition discriminate.

Lemma prefix_of_app {A : Type} (l1 l2 p q : list A) :
  l1 ++ l2 = p ++ q -> length p <= length l1 -> exists x, l1 = p ++ x.
Proof.
  revert l1. induction p as [|a p IH]; intros l1 Heq Hlen; [now exists l1|].
  destruct l1 as [|b l1]; simpl in *; [lia|].
  injection Heq as -> Heq. destruct (IH l1 Heq) as [x ->]; [lia|]. now exists x.
Qed.

(** A right-hand text the dual-equality pattern would read as a reference
    holds a reference for [paramRegexp] too. *)
Lemma dual_rhs_is_reference (rhs : string) :
  exec paramRegexp rhs = None ->
  matchHere [Chars "params."; Group nonSpace; Chars " }}"]
    (Str.chars rhs ++ Str.chars " }}") = None.
Proof.
  intros Hp.
  destruct (matchHere _ (Str.chars rhs ++ Str.chars " }}")) as [caps|] eqn:H;
    [exfalso|reflexivity].
  apply matchHere_sound in H as [rest H]. invert_matches.
  match goal with
  | Heq : _ = Str.chars rhs ++ _, Hne : ?cap <> [],
    Hall : forallb nonSpace ?cap = true |- _ =>
      destruct cap as [|c cap]; [contradiction|];
      simpl in Hall; apply andb_true_iff in Hall as [Hc _];
      symmetry in Heq;
      pose proof (f_equal (@length ascii) Heq) as Hlen;
      pose proof (prefix_of_app (Str.chars rhs) _ (Str.chars "params." ++ [c])
                    (cap ++ Str.chars " }}" ++ rest) Heq) as Hx
  end.
  rewrite length_app in Hlen. simpl in Hlen. rewrite !length_app in Hlen.
  simpl in Hlen. destruct Hx as [x Hx]; [simpl; lia|].
  destruct (paramRegexp_here c x Hc) as [m Hm].
  unfold exec in Hp. rewrite Hx, <- app_assoc in Hp.
  apply search_here in Hm. simpl app in Hp, Hm. congruence.
Qed.

(** ** Equality *)

Lemma resolveEquality_of_groups (params : gmap string ParamValue)
    (expr name rhsText : string) :
  exec equalityRegexp expr = Some [name; rhsText] ->
  resolveEquality params expr = compareWith params expr name rhsText.
Proof.
  intros H. unfold resolveEquality, compareWith, inferType. rewrite H.
  unfold group. simpl nth. destruct (params !! name) as [v|]; [|reflexivity].
  destruct (legalString v); [reflexivity|].
  destruct (legalNumber v); [reflexivity|].
  destruct (legalBoolean v); reflexivity.
Qed.

Lemma equalityRegexp_equalityOf (name rhsText : string) :
  isName name = true -> isText rhsText = true ->
  exec equalityRegexp (equalityOf name rhsText) = Some [name; rhsText].
Proof.
  intros Hn Hr. apply isName_spec in Hn as [Hn1 Hn2].
  apply isText_spec in Hr as [Hr1 Hr2].
  pose proof (equalityRegexp_synthetic _ _ Hn1 Hn2 Hr1 Hr2) as H.
  now rewrite !ofChars_chars in H.
Qed.

Lemma chars_equalityOf (name rhsText : string) :
  Str.chars (equalityOf name rhsText) =
  Str.chars "{{ params." ++ Str.chars name
    ++ " "%char :: (Str.chars "== " ++ Str.chars rhsText ++ Str.chars " }}").
Proof. unfold equalityOf. now rewrite !chars_append. Qed.

(** An equality over a name and a literal text is seen by no pattern that
    is tested before the equality pattern. *)
Lemma equalityOf_shapes (name rhsText : string) :
  isName name = true -> isText rhsText = true ->
  lacks "{" name = true -> lacks "{" rhsText = true ->
  lacks "?" rhsText = true -> exec paramRegexp rhsText = None ->
  exec identityRegexp (equalityOf name rhsText) = None /\
  exec ternaryRegexp (equalityOf name rhsText) = None /\
  exec literalTernaryRegexp (equalityOf name rhsText) = None /\
  exec dualEqualityRegexp (equalityOf name rhsText) = None.
Proof.
  intros Hn Hr Hb1 Hb2 Hq Hp.
  assert (Hb : ~ In "{"%char
                 (Str.chars "== " ++ Str.chars rhsText ++ Str.chars " }}"))
    by (clear Hb1; absent).
  assert (Hq' : ~ In "?"%char
                  (Str.chars " == " ++ Str.chars rhsText ++ Str.chars " }}"))
    by (clear Hb1 Hb2; absent).
  unfold identityRegexp, ternaryRegexp, literalTernaryRegexp, dualEqualityRegexp.
  repeat split.
  - after_name Hn (chars_equalityOf name rhsText) Hb1 Hb.
    now rewrite matchHere_Chars_mismatch.
  - after_name Hn (chars_equalityOf name rhsText) Hb1 Hb.
    rewrite (matchHere_lacks _ _ " ? " "?"); [reflexivity| | |exact Hq'];
      simpl; tauto.
  - after_name Hn (chars_equalityOf name rhsText) Hb1 Hb.
    rewrite (matchHere_lacks _ _ " ? " "?"); [reflexivity| | |exact Hq'];
      simpl; tauto.
  - after_name Hn (chars_equalityOf name rhsText) Hb1 Hb.
    change (" "%char :: Str.chars "== " ++ Str.chars rhsText ++ Str.chars " }}")
      with (Str.chars " == " ++ Str.chars rhsText ++ Str.chars " }}").
    assert (Hd : matchHere [Chars " == params."; Group nonSpace; Chars " }}"]
                   (Str.chars " == " ++ Str.chars rhsText ++ Str.chars " }}")
                 = matchHere [Chars "params."; Group nonSpace; Chars " }}"]
                     (Str.chars rhsText ++ Str.chars " }}")).
    { cbn [matchHere].
      change (Str.chars " == params.")
        with (Str.chars " == " ++ Str.chars "params.").
      destruct (Str.stripPrefix (Str.chars "params.")
                  (Str.chars rhsText ++ Str.chars " }}")) as [s'|] eqn:Hs.
      - apply stripPrefix_spec in Hs. rewrite Hs.
        rewrite (app_assoc (Str.chars " == ")). now rewrite stripPrefix_app.
      - destruct (Str.stripPrefix (Str.chars " == " ++ Str.chars "params.") _)
          as [s'|] eqn:Hs'; [|reflexivity].
        apply stripPrefix_spec in Hs'. rewrite <- app_assoc in Hs'.
        apply app_inv_head in Hs'. apply stripPrefix_spec in Hs'. congruence. }
    rewrite Hd. now rewrite dual_rhs_is_reference.
Qed.



(** ** Dual equality *)





(** ** The two ternary forms *)












(** ** A comparison with a quoted text *)

Lemma resolveLiteral_quoted (body : string) :
  exec paramRegexp (Str.quoted body) = None ->
  resolveLiteral Lstring (Str.quoted body) = Ok (VString body).
Proof.
  intros Hp. unfold resolveLiteral.
  now rewrite Hp, startsWith_quoted, endsWith_quoted, slice_quoted.
Qed.

(** The equality of a parameter that is legal as a string with a quoted
    text is the boolean of the equality of its string with the text between
    the quotes, read without escape processing. *)
Theorem string_equality_resolution (params : gmap string ParamValue) (w : L)
    (name body : string) (v : ParamValue) :
  isName name = true -> lacks "{" name = true ->
  isText (Str.quoted body) = true -> lacks "{" (Str.quoted body) = true ->
  lacks "?" (Str.quoted body) = true ->
  exec paramRegexp (Str.quoted body) = None ->
  params !! name = Some v -> legalString v = true ->
  resolveExpression params w (equalityOf name (Str.quoted body)) =
    Ok (VBoolean (String.eqb (asString v) body)).
Proof.
  intros Hn Hb1 Hr Hb2 Hq Hp Hv Hs.
  destruct (equalityOf_shapes name _ Hn Hr Hb1 Hb2 Hq Hp) as (Hi & Ht & Hl & Hd).
  pose proof (equalityRegexp_equalityOf name _ Hn Hr) as He.
  unfold resolveExpression, isIdentityExpression, isTernaryExpression,
    isLiteralTernaryExpression, isDualEqualityExpression, isEqualityExpression,
    test.
  rewrite Hi, Ht, Hl, Hd, He.
  rewrite (resolveEquality_of_groups params _ name _ He).
  unfold compareWith, inferType. rewrite Hv, Hs.
  now rewrite (resolveLiteral_quoted body Hp).
Qed.

Lemma string_equality_resolution_witness :
  isName "foo" = true /\ lacks "{" "foo" = true /\
  isText (Str.quoted "a b") = true /\ lacks "{" (Str.quoted "a b") = true /\
  lacks "?" (Str.quoted "a b") = true /\
  exec paramRegexp (Str.quoted "a b") = None /\
  fooBarTable !! "foo" = Some (stringParam "x") /\
  legalString (stringParam "x") = true /\
  resolveExpression fooBarTable Lnumber (equalityOf "foo" (Str.quoted "a b")) =
    Ok (VBoolean (String.eqb (asString (stringParam "x")) "a b")).
Proof.
  repeat (split; [reflexivity|]).
  exact (string_equality_resolution fooBarTable Lnumber "foo" "a b"
           (stringParam "x") eq_refl eq_refl eq_refl eq_refl eq_refl eq_refl
           eq_refl eq_refl).
Defined.

(** ** Branches *)




(** ** Literals *)

(** The boolean coercion accepts the two texts [true] and [false], in
    lower case and with nothing around them, and no other text. *)
Theorem boolean_literal_exact (value : string) (l : Literal) :
  resolveLiteral Lboolean value = Ok l <->
  (value = "true" /\ l = VBoolean true) \/ (value = "false" /\ l = VBoolean false).
Proof.
  split.
  - unfold resolveLiteral. destruct (exec paramRegexp value); [discriminate|].
    destruct (String.eqb_spec value "true") as [->|_];
      [intros [= <-]; now left|].
    destruct (String.eqb_spec value "false") as [->|_];
      [intros [= <-]; now right|discriminate].
  - intros [[-> ->]|[-> ->]]; reflexivity.
Qed.

(** A number parameter whose value is NaN equals no literal: whenever the
    equality resolver returns for it, it returns false. *)
Theorem nan_parameter_never_equal (params : gmap string ParamValue)
    (expr : string) (m : list string) (v : ParamValue) (b : bool) :
  exec equalityRegexp expr = Some m ->
  params !! group 1 m = Some v ->
  legalString v = false -> legalNumber v = true ->
  isNaN (asNumber v) = true ->
  resolveEquality params expr = Ok b -> b = false.
Proof.
  intros Hm Hv Hs Hn Hnan. unfold resolveEquality. rewrite Hm, Hv, Hs, Hn.
  intros H. apply bind_Ok in H as (rhs & _ & H). injection H as <-.
  destruct (asNumber v); try discriminate. now destruct rhs.
Qed.

Lemma nan_parameter_never_equal_witness :
  exec equalityRegexp "{{ params.n == 0 }}" = Some ["n"; "0"] /\
  ({[ "n" := numberParam NaN ]} : gmap string ParamValue) !! "n"
    = Some (numberParam NaN) /\
  legalString (numberParam NaN) = false /\ legalNumber (numberParam NaN) = true /\
  isNaN (asNumber (numberParam NaN)) = true /\
  resolveEquality {[ "n" := numberParam NaN ]} "{{ params.n == 0 }}" = Ok false /\
  false = false.
Proof.
  repeat (split; [reflexivity|]).
  exact (nan_parameter_never_equal {[ "n" := numberParam NaN ]}
           "{{ params.n == 0 }}" ["n"; "0"] (numberParam NaN) false
           eq_refl eq_refl eq_refl eq_refl eq_refl eq_refl).
Defined.

(** ** Where the fields of a ternary are cut *)






(** ** Shape tests and the text around a match *)

Lemma Matches_extend (p : pattern) (s : list ascii) (caps : list string)
    (rest post : list ascii) :
  Matches p s caps rest -> Matches p (s ++ post) caps (rest ++ post).
Proof.
  induction 1 as [s|lit p s caps rest _ IH|cls p cap s caps rest Hne Hall _ IH].
  - constructor.
  - rewrite <- app_assoc. now constructor.
  - rewrite <- app_assoc. now constructor.
Qed.

Lemma test_context (p : pattern) (pre s post : string) :
  test p s = true -> test p (pre +:+ s +:+ post) = true.
Proof.
  rewrite !test_spec. intros (pre0 & suf & caps & rest & Heq & Hm).
  exists (Str.chars pre ++ pre0), (suf ++ Str.chars post), caps,
    (rest ++ Str.chars post).
  split; [|now apply Matches_extend].
  now rewrite !chars_append, Heq, !app_assoc.
Qed.

(** The patterns are not anchored: an expression that has a shape keeps it
    with any text put before it and after it. *)
Theorem shape_test_ignores_context (sh : Shape) (pre expr post : string) :
  hasShape sh expr = true -> hasShape sh (pre +:+ expr +:+ post) = true.
Proof. destruct sh; apply test_context. Qed.

Lemma shape_test_ignores_context_witness :
  hasShape Identity "{{ params.foo }}" = true /\
  hasShape Identity ("see " +:+ "{{ params.foo }}" +:+ ", please") = true.
Proof.
  split; [reflexivity|].
  exact (shape_test_ignores_context Identity "see " "{{ params.foo }}"
           ", please" eq_refl).
Defined.

(** ** CEL expressions *)

(** [isCelExpression] holds of the strings that open with two opening
    braces and close with two closing braces, around any text, and of no
    other string. *)
Theorem isCelExpression_spec (value : string) :
  isCelExpression value = true <-> exists body, value = "{{" +:+ body +:+ "}}".
Proof.
  unfold isCelExpression, Str.startsWith, Str.endsWith.
  rewrite andb_true_iff, !isPrefix_spec. split.
  - intros [[r Hr] [r' Hr']].
    apply (f_equal (@rev ascii)) in Hr'. rewrite rev_involutive in Hr'.
    simpl in Hr, Hr'. rewrite Hr in Hr'.
    destruct (rev r') as [|a [|b x]]; simpl in Hr'; try discriminate.
    injection Hr' as _ _ ->. exists (Str.ofChars x).
    apply chars_inj. rewrite Hr, !chars_append, chars_ofChars.
    now rewrite <- app_assoc.
  - intros [body ->]. rewrite !chars_append. split.
    + now exists (Str.chars body ++ Str.chars "}}").
    + exists (rev (Str.chars "{{" ++ Str.chars body)).
      now rewrite app_assoc, rev_app_distr.
Qed.

(** ** Where a TypeError can come from *)








(** ** A ternary compares with a literal only *)




(** A dual equality tests as an equality: for instance the comparison of
    two parameters of the table. *)
Lemma dualEquality_isEquality_witness :
  isDualEqualityExpression "{{ params.foo == params.bar }}" = true /\
  isEqualityExpression "{{ params.foo == params.bar }}" = true.
Proof.
  split; [reflexivity|].
  exact (dualEquality_isEquality "{{ params.foo == params.bar }}" eq_refl).
Defined.
